(** * Travel-Agent front end: the trip form handler and the chat session

    A shallow embedding of the browser scripts of the repository:

    - [Part000]  : src/unnamed/part_000 (the current script: plan-trip
                   handler with snapshot variables, sendMessage);
    - [ScriptV1] : src/script.js, lines 1-54 (first variant of the handler);
    - [ScriptV2] : src/script.js, lines 54-170 (second variant, with chat).

    The page (the DOM elements the scripts touch, the script's global
    variables, and the observable effects: requests handed to [fetch],
    texts handed to [alert]) is an explicit state.  Synchronous pieces of
    code run in a state-and-exception monad; an [await] splits a handler
    into the part run up to the call of [fetch] and the part run when the
    promise settles, so that other events may run in between.

    Not represented: console output, scrolling, the request headers, the
    concrete text [JSON.stringify] prints (a request keeps the object it
    is given, and [payload] gives the JSON value that leaves), the sign
    of a zero (JSON writes both zeros alike), characters outside ASCII,
    and answers whose [plan] or [response] is not a string. *)

From Stdlib Require Import String Ascii List ZArith QArith Qpower Qabs Bool Lia.
Import ListNotations.
Close Scope Q_scope.
Open Scope string_scope.

Set Implicit Arguments.

(* ================================================================== *)
(** ** JavaScript strings (ASCII fragment) *)

Module JsString.

(** White space recognised by [String.prototype.trim], [parseFloat] and
    [parseInt], restricted to ASCII: TAB, LF, VT, FF, CR, SPACE. *)
Definition is_ws (c : ascii) : bool :=
  match nat_of_ascii c with
  | 9 | 10 | 11 | 12 | 13 | 32 => true
  | _ => false
  end.

Fixpoint trimStart (s : string) : string :=
  match s with
  | EmptyString => EmptyString
  | String c s' => if is_ws c then trimStart s' else s
  end.

Fixpoint trimEnd (s : string) : string :=
  match s with
  | EmptyString => EmptyString
  | String c s' =>
      match trimEnd s' with
      | EmptyString => if is_ws c then EmptyString else String c EmptyString
      | t => String c t
      end
  end.

(** [s.trim()] *)
Definition trim (s : string) : string := trimEnd (trimStart s).

(** [s.split(sep)] for a one-character separator.  The result is never
    empty: the empty string splits into one empty token. *)
Fixpoint split (sep : ascii) (s : string) : list string :=
  match s with
  | EmptyString => [EmptyString]
  | String c s' =>
      if Ascii.eqb c sep then EmptyString :: split sep s'
      else match split sep s' with
           | [] => [String c EmptyString]
           | t :: ts => String c t :: ts
           end
  end.

(** Truthiness of a string value: only the empty string is falsy. *)
Definition truthy (s : string) : bool :=
  match s with EmptyString => false | _ => true end.

Definition comma : ascii := ","%char.

Fixpoint count_char (c : ascii) (s : string) : nat :=
  match s with
  | EmptyString => 0
  | String d s' => (if Ascii.eqb d c then 1 else 0) + count_char c s'
  end.

End JsString.

(* ================================================================== *)
(** ** JavaScript numbers, [parseFloat] and [parseInt]

  A number is NaN, an infinity, or a finite binary64 value, kept as the
  reduced rational it is equal to.  [round64] takes a rational to the
  nearest binary64 value, ties to even, with gradual underflow and
  overflow to infinity.  The sign of zero is not represented. *)

Module JsNumber.

Inductive jsnum : Type :=
| NaN : jsnum
| Infinity (negative : bool) : jsnum
| Finite (q : Q) : jsnum.

Definition of_Z (z : Z) : jsnum := Finite (inject_Z z).

Definition negate (n : jsnum) : jsnum :=
  match n with
  | NaN => NaN
  | Infinity neg => Infinity (negb neg)
  | Finite q => Finite (Qopp q)
  end.

Definition pow2 (e : Z) : Q :=
  if (0 <=? e)%Z then inject_Z (2 ^ e) else Qinv (inject_Z (2 ^ (- e))).

(** The integer nearest to [num / den], the even one of two at the same
    distance ([0 <= num], [0 < den]). *)
Definition round_half_even (num den : Z) : Z :=
  let fl := (num / den)%Z in
  match (2 * (num mod den) ?= den)%Z with
  | Lt => fl
  | Gt => (fl + 1)%Z
  | Eq => if Z.even fl then fl else (fl + 1)%Z
  end.

(** [n / d < 2 ^ e], for positive [n] and [d]. *)
Definition below_pow2 (n d e : Z) : bool :=
  if (0 <=? e)%Z then (n <? d * 2 ^ e)%Z else (n * 2 ^ (- e) <? d)%Z.

(** The binary exponent of [n / d], both positive: the [e] with
    [2 ^ e <= n / d < 2 ^ (e + 1)]. *)
Definition exponent_of (n d : Z) : Z :=
  let e0 := (Z.log2 n - Z.log2 d)%Z in
  if below_pow2 n d e0 then (e0 - 1)%Z else e0.

(** Rounding of [n / d], both positive.  [e] is the binary exponent of
    the quotient, [x] the exponent of the last place of its 53-bit
    significand (not below the subnormal one), [m] the significand: the
    quotient by [2 ^ x], rounded, both terms of the fraction being
    scaled by [2 ^ 1074] to stay among integers. *)
Definition round_positive (n d : Z) : jsnum :=
  let e := exponent_of n d in
  let x := Z.max (e - 52) (-1074) in
  let m := round_half_even (n * 2 ^ 1074) (d * 2 ^ (x + 1074)) in
  if (1024 <=? Z.log2 m + x)%Z then Infinity false
  else Finite (Qred (Qmult (inject_Z m) (pow2 x))).

(** The Number value of a rational. *)
Definition round64 (q : Q) : jsnum :=
  let r := Qred q in
  match Qnum r with
  | Z0 => Finite (inject_Z 0)
  | Zpos n => round_positive (Zpos n) (Zpos (Qden r))
  | Zneg n => negate (round_positive (Zpos n) (Zpos (Qden r)))
  end.

Definition digit (c : ascii) : option Z :=
  let n := nat_of_ascii c in
  if (48 <=? n)%nat && (n <=? 57)%nat then Some (Z.of_nat (n - 48)) else None.

Definition hexdigit (c : ascii) : option Z :=
  let n := nat_of_ascii c in
  if (48 <=? n)%nat && (n <=? 57)%nat then Some (Z.of_nat (n - 48))
  else if (65 <=? n)%nat && (n <=? 70)%nat then Some (Z.of_nat (n - 55))
  else if (97 <=? n)%nat && (n <=? 102)%nat then Some (Z.of_nat (n - 87))
  else None.

(** Longest run of digits at the head of [s]: the value accumulated on
    top of [acc], how many digits were read, and the rest. *)
Fixpoint read_digits (dig : ascii -> option Z) (base : Z)
         (s : string) (acc : Z) (n : nat) : Z * nat * string :=
  match s with
  | EmptyString => (acc, n, s)
  | String c s' =>
      match dig c with
      | Some d => read_digits dig base s' (base * acc + d)%Z (S n)
      | None => (acc, n, s)
      end
  end.

(** An optional sign: [true] for a leading minus. *)
Definition read_sign (s : string) : bool * string :=
  match s with
  | String "-" s' => (true, s')
  | String "+" s' => (false, s')
  | _ => (false, s)
  end.

Definition pow10 (e : Z) : Q :=
  if (0 <=? e)%Z then inject_Z (10 ^ e) else Qinv (inject_Z (10 ^ (- e))).

Definition signed (neg : bool) (q : Q) : Q := if neg then Qopp q else q.

(** The exponent part [e], [e+] or [e-] followed by at least one digit;
    0 when there is none. *)
Definition read_exponent (s : string) : Z :=
  match s with
  | String c s' =>
      if Ascii.eqb c "e" || Ascii.eqb c "E" then
        let (neg, s'') := read_sign s' in
        match read_digits digit 10 s'' 0 0 with
        | (_, O, _) => 0%Z
        | (e, _, _) => if neg then (- e)%Z else e
        end
      else 0%Z
  | EmptyString => 0%Z
  end.

(** [parseFloat(s)]: leading white space is skipped, then the longest
    prefix that is a decimal literal is read and its value rounded; NaN
    when there is none. *)
Definition parseFloat (s : string) : jsnum :=
  let (neg, s1) := read_sign (JsString.trimStart s) in
  if String.prefix "Infinity" s1 then Infinity neg
  else
    match read_digits digit 10 s1 0 0 with
    | (ip, ni, r1) =>
        let '(m, nf, r2) :=
          match r1 with
          | String "." r1' => read_digits digit 10 r1' ip 0
          | _ => (ip, O, r1)
          end in
        match ni, nf with
        | O, O => NaN
        | _, _ =>
            round64 (signed neg
              (Qmult (inject_Z m) (pow10 (read_exponent r2 - Z.of_nat nf))))
        end
    end.

(** [parseInt(s)] with no radix: leading white space, a sign, then
    hexadecimal digits after [0x] or [0X], decimal digits otherwise. *)
Definition parseInt (s : string) : jsnum :=
  let (neg, s1) := read_sign (JsString.trimStart s) in
  let '(v, n, _) :=
    match s1 with
    | String "0" (String "x" r) | String "0" (String "X" r) =>
        read_digits hexdigit 16 r 0 0
    | _ => read_digits digit 10 s1 0 0
    end in
  match n with
  | O => NaN
  | _ => round64 (inject_Z (if neg then - v else v))
  end.

End JsNumber.

Export JsNumber.


(* ================================================================== *)
(** ** The page: elements, form controls, script variables, effects *)

Module Browser.

(** A child of [#chatMessages], as [addMessageToChat] builds it. *)
Record Message : Type := {
  className : string;
  innerHTML : string
}.

(** The properties of the elements the scripts read or write.  The
    variants use different loading indicators ([#loading] by its display
    style, [#loadingSpinner] by its class list); both are kept. A
    [_hidden] field tells whether the class list holds [hidden]. *)
Record Elements : Type := {
  loading_display : string;
  loadingSpinner_hidden : bool;
  result_display : string;
  result_hidden : bool;
  planContent : string;
  chatMessages : list Message;
  chatBox_hidden : bool;
  flightDetails_hidden : bool;
  flightContent : string;
  chatInput : string
}.

(** The [value] of each form control; [includeFlights_checked] is [None]
    when the page has no [#includeFlights] element. *)
Record Form : Type := {
  source_value : string;
  destination_value : string;
  startDate_value : string;
  endDate_value : string;
  budget_value : string;
  numTravelers_value : string;
  travelers_value : string;
  interests_value : string;
  includeFlights_checked : option bool
}.

(** The script's top-level [let] variables (part_000, lines 1-8). *)
Record Globals : Type := {
  currentTravelPlan : string;
  currentBudget : jsnum;
  currentTravelers : jsnum;
  currentInterests : list string;
  currentIncludeFlights : bool;
  currentSource : string;
  currentDestination : string;
  currentStartDate : string
}.

Definition initial_globals : Globals :=
  {| currentTravelPlan := EmptyString;
     currentBudget := of_Z 0;
     currentTravelers := of_Z 1;
     currentInterests := [];
     currentIncludeFlights := false;
     currentSource := EmptyString;
     currentDestination := EmptyString;
     currentStartDate := EmptyString |}.

(** Values of the properties of a request body. *)
Inductive jsval : Type :=
| VStr (s : string)
| VNum (n : jsnum)
| VBool (b : bool)
| VArr (l : list string).

(** A call [fetch(url, {method: 'POST', headers, body: JSON.stringify(o)})]:
    [body] is the object literal [o], its properties in source order;
    [payload], below, is what [JSON.stringify] makes of it, the body that
    leaves. *)
Record Request : Type := {
  url : string;
  body : list (string * jsval)
}.

(** A JSON value: what the text of a request body denotes. *)
#[warnings="-register-all"] Inductive json : Type :=
| JNull
| JBool (b : bool)
| JNumber (q : Q)
| JString (s : string)
| JArray (items : list json)
| JObject (members : list (string * json)).

(** [JSON.stringify] on the values a request body holds.  JSON has no
    NaN and no infinity: such a number is written [null]. *)
Definition stringify_number (n : jsnum) : json :=
  match n with
  | Finite q => JNumber q
  | NaN | Infinity _ => JNull
  end.

Definition stringify_value (v : jsval) : json :=
  match v with
  | VStr s => JString s
  | VNum n => stringify_number n
  | VBool b => JBool b
  | VArr l => JArray (map JString l)
  end.

Definition JSON_stringify (o : list (string * jsval)) : json :=
  JObject (map (fun kv => (fst kv, stringify_value (snd kv))) o).

(** The outbound payload of a request. *)
Definition payload (r : Request) : json := JSON_stringify (body r).

(** The member of a JSON object under a key. *)
Fixpoint lookup_member (key : string) (ms : list (string * json))
  : option json :=
  match ms with
  | [] => None
  | (k, v) :: rest => if String.eqb k key then Some v
                      else lookup_member key rest
  end.

Definition member (key : string) (j : json) : option json :=
  match j with
  | JObject ms => lookup_member key ms
  | _ => None
  end.

Record Page : Type := {
  dom : Elements;
  form : Form;
  vars : Globals;
  requests : list Request;
  alerts : list string
}.

(** Assignment to one field; the others are carried over. *)
Definition with_loading_display (v : string) (x : Elements) : Elements :=
  Build_Elements v (loadingSpinner_hidden x) (result_display x)
    (result_hidden x) (planContent x) (chatMessages x) (chatBox_hidden x)
    (flightDetails_hidden x) (flightContent x) (chatInput x).
Definition with_loadingSpinner_hidden (v : bool) (x : Elements) : Elements :=
  Build_Elements (loading_display x) v (result_display x) (result_hidden x)
    (planContent x) (chatMessages x) (chatBox_hidden x)
    (flightDetails_hidden x) (flightContent x) (chatInput x).
Definition with_result_display (v : string) (x : Elements) : Elements :=
  Build_Elements (loading_display x) (loadingSpinner_hidden x) v
    (result_hidden x) (planContent x) (chatMessages x) (chatBox_hidden x)
    (flightDetails_hidden x) (flightContent x) (chatInput x).
Definition with_result_hidden (v : bool) (x : Elements) : Elements :=
  Build_Elements (loading_display x) (loadingSpinner_hidden x)
    (result_display x) v (planContent x) (chatMessages x) (chatBox_hidden x)
    (flightDetails_hidden x) (flightContent x) (chatInput x).
Definition with_planContent (v : string) (x : Elements) : Elements :=
  Build_Elements (loading_display x) (loadingSpinner_hidden x)
    (result_display x) (result_hidden x) v (chatMessages x) (chatBox_hidden
    x) (flightDetails_hidden x) (flightContent x) (chatInput x).
Definition with_chatMessages (v : list Message) (x : Elements) : Elements :=
  Build_Elements (loading_display x) (loadingSpinner_hidden x)
    (result_display x) (result_hidden x) (planContent x) v (chatBox_hidden
    x) (flightDetails_hidden x) (flightContent x) (chatInput x).
Definition with_chatBox_hidden (v : bool) (x : Elements) : Elements :=
  Build_Elements (loading_display x) (loadingSpinner_hidden x)
    (result_display x) (result_hidden x) (planContent x) (chatMessages x) v
    (flightDetails_hidden x) (flightContent x) (chatInput x).
Definition with_flightDetails_hidden (v : bool) (x : Elements) : Elements :=
  Build_Elements (loading_display x) (loadingSpinner_hidden x)
    (result_display x) (result_hidden x) (planContent x) (chatMessages x)
    (chatBox_hidden x) v (flightContent x) (chatInput x).
Definition with_flightContent (v : string) (x : Elements) : Elements :=
  Build_Elements (loading_display x) (loadingSpinner_hidden x)
    (result_display x) (result_hidden x) (planContent x) (chatMessages x)
    (chatBox_hidden x) (flightDetails_hidden x) v (chatInput x).
Definition with_chatInput (v : string) (x : Elements) : Elements :=
  Build_Elements (loading_display x) (loadingSpinner_hidden x)
    (result_display x) (result_hidden x) (planContent x) (chatMessages x)
    (chatBox_hidden x) (flightDetails_hidden x) (flightContent x) v.

Definition with_currentTravelPlan (v : string) (x : Globals) : Globals :=
  Build_Globals v (currentBudget x) (currentTravelers x) (currentInterests
    x) (currentIncludeFlights x) (currentSource x) (currentDestination x)
    (currentStartDate x).
Definition with_currentBudget (v : jsnum) (x : Globals) : Globals :=
  Build_Globals (currentTravelPlan x) v (currentTravelers x)
    (currentInterests x) (currentIncludeFlights x) (currentSource x)
    (currentDestination x) (currentStartDate x).
Definition with_currentTravelers (v : jsnum) (x : Globals) : Globals :=
  Build_Globals (currentTravelPlan x) (currentBudget x) v (currentInterests
    x) (currentIncludeFlights x) (currentSource x) (currentDestination x)
    (currentStartDate x).
Definition with_currentInterests (v : list string) (x : Globals) : Globals :=
  Build_Globals (currentTravelPlan x) (currentBudget x) (currentTravelers x)
    v (currentIncludeFlights x) (currentSource x) (currentDestination x)
    (currentStartDate x).
Definition with_currentIncludeFlights (v : bool) (x : Globals) : Globals :=
  Build_Globals (currentTravelPlan x) (currentBudget x) (currentTravelers x)
    (currentInterests x) v (currentSource x) (currentDestination x)
    (currentStartDate x).
Definition with_currentSource (v : string) (x : Globals) : Globals :=
  Build_Globals (currentTravelPlan x) (currentBudget x) (currentTravelers x)
    (currentInterests x) (currentIncludeFlights x) v (currentDestination x)
    (currentStartDate x).
Definition with_currentDestination (v : string) (x : Globals) : Globals :=
  Build_Globals (currentTravelPlan x) (currentBudget x) (currentTravelers x)
    (currentInterests x) (currentIncludeFlights x) (currentSource x) v
    (currentStartDate x).
Definition with_currentStartDate (v : string) (x : Globals) : Globals :=
  Build_Globals (currentTravelPlan x) (currentBudget x) (currentTravelers x)
    (currentInterests x) (currentIncludeFlights x) (currentSource x)
    (currentDestination x) v.

Definition with_dom (v : Elements) (x : Page) : Page :=
  Build_Page v (form x) (vars x) (requests x) (alerts x).
Definition with_form (v : Form) (x : Page) : Page :=
  Build_Page (dom x) v (vars x) (requests x) (alerts x).
Definition with_vars (v : Globals) (x : Page) : Page :=
  Build_Page (dom x) (form x) v (requests x) (alerts x).
Definition with_requests (v : list Request) (x : Page) : Page :=
  Build_Page (dom x) (form x) (vars x) v (alerts x).
Definition with_alerts (v : list string) (x : Page) : Page :=
  Build_Page (dom x) (form x) (vars x) (requests x) v.

(** The result area is shown when neither its inline style nor the
    [hidden] class takes it off the page. *)
Definition result_visible (p : Page) : bool :=
  negb (String.eqb (result_display (dom p)) "none") && negb (result_hidden (dom p)).

Definition chat_active (p : Page) : bool := negb (chatBox_hidden (dom p)).

Definition flight_section_visible (p : Page) : bool :=
  negb (flightDetails_hidden (dom p)).

(** What a settled [fetch] followed by [response.json()] hands back:
    a rejection of either promise with the error's message, or the status
    flag [response.ok] and the parsed body. *)
Inductive FetchOutcome (D : Type) : Type :=
| Rejected (message : string)
| Resolved (ok : bool) (data : D).

Arguments Rejected {D} message.
Arguments Resolved {D} ok data.

(** Body of a trip response; [success] is the truthiness of
    [data.success]. [plan] is read only on success. *)
Record PlanData : Type := {
  success : bool;
  plan : string;
  flight_details : option string;
  error : option string;
  detail : option string
}.

Record ChatData : Type := {
  response : string
}.

(** Truthiness of an optional string property: [undefined] and the empty
    string are falsy. *)
Definition truthy_opt (o : option string) : bool :=
  match o with Some s => JsString.truthy s | None => false end.

(** String conversion as in ['...' + x] and template literals. *)
Definition to_string (o : option string) : string :=
  match o with Some s => s | None => "undefined" end.

(** How a piece of code ends. *)
Inductive Completion : Type :=
| Returned
| Threw (message : string).

(** An async function either settles without awaiting, or has called
    [fetch] and waits, keeping its local constants [L]. *)
Inductive Suspend (L : Type) : Type :=
| Settled (c : Completion) (p : Page)
| Awaiting (req : Request) (locals : L) (p : Page).

Arguments Settled {L} c p.
Arguments Awaiting {L} req locals p.

End Browser.

Export Browser.

(* ================================================================== *)
(** ** Synchronous code: state and exceptions *)

Module Js.

(** A computation over the page that returns a value or throws an error,
    of which only the message is kept. *)
Definition M (A : Type) : Type := Page -> (string + A) * Page.

Definition ret {A} (a : A) : M A := fun p => (inr a, p).

Definition throw {A} (message : string) : M A := fun p => (inl message, p).

Definition bind {A B} (m : M A) (k : A -> M B) : M B :=
  fun p =>
    match m p with
    | (inl e, q) => (inl e, q)
    | (inr a, q) => k a q
    end.

Definition gets {A} (f : Page -> A) : M A := fun p => (inr (f p), p).

Definition modify (f : Page -> Page) : M unit := fun p => (inr tt, f p).

(** [try { body } catch (error) { handler(error.message) }] *)
Definition try_catch {A} (body : M A) (handler : string -> M A) : M A :=
  fun p =>
    match body p with
    | (inl e, q) => handler e q
    | r => r
    end.

(** [try { body } finally { cleanup }], for a cleanup that cannot throw. *)
Definition finally {A} (body : M A) (cleanup : Page -> Page) : M A :=
  fun p => let (r, q) := body p in (r, cleanup q).

(** [await] of the response and of its body. *)
Definition await {D} (o : FetchOutcome D) : M (bool * D) :=
  match o with
  | Rejected e => throw e
  | Resolved ok d => ret (ok, d)
  end.

Definition completion (r : string + unit) : Completion :=
  match r with inl e => Threw e | inr _ => Returned end.

(** [alert(text)] *)
Definition alert (text : string) : M unit :=
  modify (fun p => with_alerts (alerts p ++ [text]) p).

(** The call of [fetch]: the request leaves, the function suspends. *)
Definition call_fetch {L} (req : Request) (locals : L) (p : Page) : Suspend L :=
  Awaiting req locals (with_requests (requests p ++ [req]) p).

(** Assignment to a property of an element, to a script variable. *)
Definition set_dom (f : Elements -> Elements) : M unit :=
  modify (fun p => with_dom (f (dom p)) p).

Definition set_var (f : Globals -> Globals) : M unit :=
  modify (fun p => with_vars (f (vars p)) p).

End Js.

Declare Scope js_scope.
Delimit Scope js_scope with js.
Notation "x <- m ;; k" := (Js.bind m (fun x => k))
  (at level 61, m at next level, right associativity) : js_scope.
Notation "m ;; k" := (Js.bind m (fun _ => k))
  (at level 61, right associativity) : js_scope.

(* ================================================================== *)
(** ** Code shared by the variants *)

Module Common.
Import Js.
Local Open Scope js_scope.

(** The constants a submit handler reads from the form before it calls
    [fetch]; they stay in its closure while it waits. *)
Record Locals : Type := {
  source : string;
  destination : string;
  startDate : string;
  endDate : string;
  budget : jsnum;
  numTravelers : jsnum;
  interests : list string;
  includeFlights : bool
}.

(** [value.split(',').map(interest => interest.trim())] *)
Definition parse_interests (value : string) : list string :=
  map JsString.trim (JsString.split JsString.comma value).

Section Marked.

(** The global [marked] of the markdown library: [Some parse] when the
    library is loaded, [None] when the identifier is not defined. *)
Variable marked : option (string -> string).

(** [marked.parse(text)]; a ReferenceError when [marked] is not defined. *)
Definition marked_parse (text : string) : M string :=
  match marked with
  | Some parse => ret (parse text)
  | None => throw "marked is not defined"
  end.

(** [addMessageToChat(message, isUser)] (part_000 lines 141-148,
    script.js lines 156-163).  The new element is built first and
    appended last; scrolling is not represented. *)
Definition addMessageToChat (message : string) (isUser : bool) : M unit :=
  let messageDiv_className :=
    "message " ++ (if isUser then "user-message" else "ai-message")
               ++ " " ++ (if isUser then "user" else "ai") in
  html <- marked_parse message ;;
  set_dom (fun d =>
    with_chatMessages
      (chatMessages d ++ [{| className := messageDiv_className;
                             innerHTML := html |}]) d).

(** The second half of [sendMessage], from the settling of [fetch] on
    (part_000 lines 129-138, script.js lines 144-153). *)
Definition sendMessage_resume (o : FetchOutcome ChatData) : M unit :=
  try_catch
    (r <- await o ;;
     let (ok, data) := r : bool * ChatData in
     if ok then addMessageToChat (response data) false
     else addMessageToChat
            "Sorry, I couldn't process your question. Please try again." false)
    (fun _ =>
       addMessageToChat "Error connecting to the server. Please try again." false).

End Marked.

Definition is_user_message (m : Message) : bool :=
  String.eqb (className m) "message user-message user".

Definition is_ai_message (m : Message) : bool :=
  String.eqb (className m) "message ai-message ai".

End Common.

Export Common.

(* ================================================================== *)
(** ** src/unnamed/part_000 *)

Module Part000.
Import Js.
Local Open Scope js_scope.

Section Marked.
Variable marked : option (string -> string).

(** Lines 18-25: the form values. *)
Definition readForm : M Locals :=
  gets (fun p =>
    let f := form p in
    {| source := source_value f;
       destination := destination_value f;
       startDate := startDate_value f;
       endDate := endDate_value f;
       budget := parseFloat (budget_value f);
       numTravelers := parseInt (numTravelers_value f);
       interests := parse_interests (interests_value f);
       includeFlights :=
         match includeFlights_checked f with
         | Some checked => checked
         | None => false
         end |}).

(** Lines 33-42: the object given to [JSON.stringify]. *)
Definition trip_request (l : Locals) : Request :=
  {| url := "http://localhost:8000/plan-trip";
     body := [ ("source", VStr (source l));
               ("destination", VStr (destination l));
               ("start_date", VStr (startDate l));
               ("end_date", VStr (endDate l));
               ("budget", VNum (budget l));
               ("num_travelers", VNum (numTravelers l));
               ("interests", VArr (interests l));
               ("include_flights", VBool (includeFlights l)) ] |}.

(** Lines 10-43: the submit handler up to its first [await]. *)
Definition submit (p : Page) : Suspend Locals :=
  match (set_dom (with_loading_display "block") ;;
         set_dom (with_result_display "none") ;;
         readForm) p with
  | (inl e, q) => Settled (Threw e) q
  | (inr l, q) => call_fetch (trip_request l) l q
  end.

(** Lines 47-72: the branch taken when [data.success] is truthy. *)
Definition show_plan (l : Locals) (data : PlanData) : M unit :=
  set_dom (with_planContent
    match marked with
    | Some parse => parse (plan data)
    | None => "<pre>" ++ plan data ++ "</pre>"
    end) ;;
  set_dom (with_chatMessages []) ;;
  set_var (with_currentTravelPlan (plan data)) ;;
  set_var (with_currentBudget (budget l)) ;;
  set_var (with_currentTravelers (numTravelers l)) ;;
  set_var (with_currentInterests (interests l)) ;;
  set_var (with_currentIncludeFlights (includeFlights l)) ;;
  set_var (with_currentSource (source l)) ;;
  set_var (with_currentDestination (destination l)) ;;
  set_var (with_currentStartDate (startDate l)) ;;
  set_dom (with_chatBox_hidden false) ;;
  (if truthy_opt (flight_details data) then
     html <- marked_parse marked (to_string (flight_details data)) ;;
     set_dom (with_flightContent html) ;;
     set_dom (with_flightDetails_hidden false)
   else
     set_dom (with_flightDetails_hidden true)) ;;
  set_dom (with_result_display "block") ;;
  set_dom (with_result_hidden false).

(** Lines 73-79: the branch taken otherwise. *)
Definition show_error (data : PlanData) : M unit :=
  set_dom (with_planContent
    ("<span style='color:red;'>"
       ++ (if truthy_opt (error data) then to_string (error data)
           else "Error generating travel plan. Please try again.")
       ++ "</span>")) ;;
  set_dom (with_result_display "block") ;;
  set_dom (with_result_hidden false).

(** Lines 45-85: the handler from the settling of [fetch] on. *)
Definition submit_resume (l : Locals) (o : FetchOutcome PlanData) : M unit :=
  finally
    (try_catch
       (r <- await o ;;
        let data := snd r in
        if success data then show_plan l data else show_error data)
       (fun e => alert ("Error connecting to the server: " ++ e)))
    (fun p => with_dom (with_loading_display "none" (dom p)) p).

(** Lines 111-127: the chat request, from the script variables. *)
Definition chat_request (message : string) (g : Globals) : Request :=
  {| url := "http://localhost:8000/chat";
     body := [ ("question", VStr message);
               ("travel_plan", VStr (currentTravelPlan g));
               ("budget", VNum (currentBudget g));
               ("travelers", VNum (currentTravelers g));
               ("interests", VArr (currentInterests g));
               ("include_flights", VBool (currentIncludeFlights g));
               ("source", VStr (currentSource g));
               ("destination", VStr (currentDestination g));
               ("start_date", VStr (currentStartDate g)) ] |}.

(** Lines 88-127: [sendMessage] up to its first [await].  An error thrown
    by the first [addMessageToChat] is outside the [try] and rejects the
    function's promise. *)
Definition sendMessage (p : Page) : Suspend unit :=
  let message := JsString.trim (chatInput (dom p)) in
  if negb (JsString.truthy message) then Settled Returned p
  else
    match (set_dom (with_chatInput EmptyString) ;;
           addMessageToChat marked message true) p with
    | (inl e, q) => Settled (Threw e) q
    | (inr _, q) => call_fetch (chat_request message (vars q)) tt q
    end.

(** A whole run of a handler when nothing else happens while it waits. *)
Definition run_submit (o : FetchOutcome PlanData) (p : Page)
  : Completion * Page :=
  match submit p with
  | Settled c q => (c, q)
  | Awaiting _ l q => let (r, q') := submit_resume l o q in (completion r, q')
  end.

Definition run_sendMessage (o : FetchOutcome ChatData) (p : Page)
  : Completion * Page :=
  match sendMessage p with
  | Settled c q => (c, q)
  | Awaiting _ _ q =>
      let (r, q') := sendMessage_resume marked o q in (completion r, q')
  end.

End Marked.
End Part000.

(* ================================================================== *)
(** ** src/script.js, lines 1-54: the first variant *)

Module ScriptV1.
Import Js.
Local Open Scope js_scope.

(** [text.replace(/\n/g, '<br>')] *)
Fixpoint replace_newlines (text : string) : string :=
  match text with
  | EmptyString => EmptyString
  | String c rest =>
      if Ascii.eqb c (ascii_of_nat 10) then "<br>" ++ replace_newlines rest
      else String c (replace_newlines rest)
  end.

(** Lines 9-15.  This variant has no [includeFlights] constant; the field
    of [Locals] is left [false] and is not read. *)
Definition readForm : M Locals :=
  gets (fun p =>
    let f := form p in
    {| source := source_value f;
       destination := destination_value f;
       startDate := startDate_value f;
       endDate := endDate_value f;
       budget := parseFloat (budget_value f);
       numTravelers := parseInt (numTravelers_value f);
       interests := parse_interests (interests_value f);
       includeFlights := false |}).

(** Lines 18-26: [requestData]. *)
Definition requestData (l : Locals) : list (string * jsval) :=
  [ ("source", VStr (source l));
    ("destination", VStr (destination l));
    ("start_date", VStr (startDate l));
    ("end_date", VStr (endDate l));
    ("budget", VNum (budget l));
    ("num_travelers", VNum (numTravelers l));
    ("interests", VArr (interests l)) ].

Definition submit (p : Page) : Suspend Locals :=
  match (set_dom (with_loading_display "block") ;;
         set_dom (with_result_display "none") ;;
         readForm) p with
  | (inl e, q) => Settled (Threw e) q
  | (inr l, q) =>
      call_fetch {| url := "http://localhost:8000/plan-trip";
                    body := requestData l |} l q
  end.

(** Lines 38-53. *)
Definition submit_resume (l : Locals) (o : FetchOutcome PlanData) : M unit :=
  finally
    (try_catch
       (r <- await o ;;
        let data := snd r in
        if success data then
          set_dom (with_planContent (replace_newlines (plan data))) ;;
          set_dom (with_result_display "block")
        else
          alert "Error generating travel plan. Please try again.")
       (fun _ => alert "Error generating travel plan. Please try again."))
    (fun p => with_dom (with_loading_display "none" (dom p)) p).

Definition run_submit (o : FetchOutcome PlanData) (p : Page)
  : Completion * Page :=
  match submit p with
  | Settled c q => (c, q)
  | Awaiting _ l q => let (r, q') := submit_resume l o q in (completion r, q')
  end.

End ScriptV1.

(* ================================================================== *)
(** ** src/script.js, lines 54-170: the second variant *)

Module ScriptV2.
Import Js.
Local Open Scope js_scope.

Section Marked.
Variable marked : option (string -> string).

(** Lines 64-71.  The traveller count comes from [#travelers] (the
    constant [travelers], kept in the field [numTravelers]); the check
    box is read without a test, so a page without it throws a TypeError
    before the [try]. *)
Definition readForm : M Locals :=
  fun p =>
    let f := form p in
    match includeFlights_checked f with
    | Some checked =>
        ret {| source := source_value f;
               destination := destination_value f;
               startDate := startDate_value f;
               endDate := endDate_value f;
               budget := parseFloat (budget_value f);
               numTravelers := parseInt (travelers_value f);
               interests := parse_interests (interests_value f);
               includeFlights := checked |} p
    | None => throw "Cannot read properties of null (reading 'checked')" p
    end.

(** Lines 79-88. *)
Definition trip_request (l : Locals) : Request :=
  {| url := "http://localhost:8000/generate-plan";
     body := [ ("source", VStr (source l));
               ("destination", VStr (destination l));
               ("start_date", VStr (startDate l));
               ("end_date", VStr (endDate l));
               ("budget", VNum (budget l));
               ("travelers", VNum (numTravelers l));
               ("interests", VArr (interests l));
               ("include_flights", VBool (includeFlights l)) ] |}.

Definition submit (p : Page) : Suspend Locals :=
  match (set_dom (with_loadingSpinner_hidden false) ;;
         set_dom (with_result_hidden true) ;;
         readForm) p with
  | (inl e, q) => Settled (Threw e) q
  | (inr l, q) => call_fetch (trip_request l) l q
  end.

(** Lines 93-109: the branch taken when [response.ok]. *)
Definition show_plan (data : PlanData) : M unit :=
  html <- marked_parse marked (plan data) ;;
  set_dom (with_planContent html) ;;
  set_dom (with_chatMessages []) ;;
  set_var (with_currentTravelPlan (plan data)) ;;
  set_dom (with_chatBox_hidden false) ;;
  (if truthy_opt (flight_details data) then
     html <- marked_parse marked (to_string (flight_details data)) ;;
     set_dom (with_flightContent html) ;;
     set_dom (with_flightDetails_hidden false)
   else
     set_dom (with_flightDetails_hidden true)) ;;
  set_dom (with_result_hidden false).

(** Lines 91-118. *)
Definition submit_resume (l : Locals) (o : FetchOutcome PlanData) : M unit :=
  finally
    (try_catch
       (r <- await o ;;
        let (ok, data) := r : bool * PlanData in
        if ok then show_plan data
        else alert ("Error: " ++ to_string (detail data)))
       (fun e => alert ("Error connecting to the server: " ++ e)))
    (fun p => with_dom (with_loadingSpinner_hidden true (dom p)) p).

(** Lines 138-141. *)
Definition chat_request (message : string) (g : Globals) : Request :=
  {| url := "http://localhost:8000/chat";
     body := [ ("question", VStr message);
               ("travel_plan", VStr (currentTravelPlan g)) ] |}.

(** Lines 121-142. *)
Definition sendMessage (p : Page) : Suspend unit :=
  let message := JsString.trim (chatInput (dom p)) in
  if negb (JsString.truthy message) then Settled Returned p
  else
    match (set_dom (with_chatInput EmptyString) ;;
           addMessageToChat marked message true) p with
    | (inl e, q) => Settled (Threw e) q
    | (inr _, q) => call_fetch (chat_request message (vars q)) tt q
    end.

Definition run_submit (o : FetchOutcome PlanData) (p : Page)
  : Completion * Page :=
  match submit p with
  | Settled c q => (c, q)
  | Awaiting _ l q => let (r, q') := submit_resume l o q in (completion r, q')
  end.

Definition run_sendMessage (o : FetchOutcome ChatData) (p : Page)
  : Completion * Page :=
  match sendMessage p with
  | Settled c q => (c, q)
  | Awaiting _ _ q =>
      let (r, q') := sendMessage_resume marked o q in (completion r, q')
  end.

End Marked.
End ScriptV2.

(* ================================================================== *)
(** ** Sample pages used to run the handlers *)

Module Samples.

Definition blank_elements : Elements :=
  {| loading_display := "none";
     loadingSpinner_hidden := true;
     result_display := "none";
     result_hidden := true;
     planContent := EmptyString;
     chatMessages := [];
     chatBox_hidden := true;
     flightDetails_hidden := true;
     flightContent := EmptyString;
     chatInput := EmptyString |}.

(** The form of the scenario of the specification. *)
Definition paris_form : Form :=
  {| source_value := "NYC";
     destination_value := "Paris";
     startDate_value := "2024-06-01";
     endDate_value := "2024-06-10";
     budget_value := "2000";
     numTravelers_value := "2";
     travelers_value := "2";
     interests_value := "art, food";
     includeFlights_checked := Some true |}.

Definition fresh_page : Page :=
  {| dom := blank_elements;
     form := paris_form;
     vars := initial_globals;
     requests := [];
     alerts := [] |}.

(** What the handler reads from [paris_form]. *)
Definition paris_locals : Locals :=
  {| source := "NYC";
     destination := "Paris";
     startDate := "2024-06-01";
     endDate := "2024-06-10";
     budget := of_Z 2000;
     numTravelers := of_Z 2;
     interests := ["art"; "food"];
     includeFlights := true |}.

(** A renderer standing for the library: it wraps the text in a
    paragraph. *)
Definition paragraph (text : string) : string := "<p>" ++ text ++ "</p>".

Definition plan_ok : PlanData :=
  {| success := true;
     plan := "Day 1: Louvre";
     flight_details := Some "AF 007";
     error := None;
     detail := None |}.

Definition plan_ok_no_flights : PlanData :=
  {| success := true;
     plan := "Day 1: Louvre";
     flight_details := None;
     error := None;
     detail := None |}.

Definition plan_failed : PlanData :=
  {| success := false;
     plan := EmptyString;
     flight_details := None;
     error := Some "Invalid dates";
     detail := None |}.

(** The body of a non-OK answer: only [detail] is set. *)
Definition plan_rejected : PlanData :=
  {| success := false;
     plan := EmptyString;
     flight_details := None;
     error := None;
     detail := Some "Quota exceeded" |}.

(** A page on which a plan is shown and two chat turns were exchanged. *)
Definition chatting_page : Page :=
  {| dom :=
       {| loading_display := "none";
          loadingSpinner_hidden := true;
          result_display := "block";
          result_hidden := false;
          planContent := "<p>Day 1: Montmartre</p>";
          chatMessages :=
            [ {| className := "message user-message user";
                 innerHTML := "<p>Is it far?</p>" |};
              {| className := "message ai-message ai";
                 innerHTML := "<p>No.</p>" |} ];
          chatBox_hidden := false;
          flightDetails_hidden := true;
          flightContent := EmptyString;
          chatInput := "  What about rain? " |};
     form := paris_form;
     vars :=
       {| currentTravelPlan := "Day 1: Montmartre";
          currentBudget := of_Z 900;
          currentTravelers := of_Z 1;
          currentInterests := ["walks"];
          currentIncludeFlights := false;
          currentSource := "Lyon";
          currentDestination := "Paris";
          currentStartDate := "2024-05-01" |};
     requests := [];
     alerts := [] |}.

End Samples.

(* ================================================================== *)
(** ** Notions the statements below use *)

Module Spec.

(** [haystack.includes(needle)] *)
Fixpoint includes (needle haystack : string) : bool :=
  String.prefix needle haystack
  || match haystack with
     | EmptyString => false
     | String _ rest => includes needle rest
     end.

(** A text made of white space only (the empty text included). *)
Fixpoint whitespace_only (s : string) : bool :=
  match s with
  | EmptyString => true
  | String c rest => JsString.is_ws c && whitespace_only rest
  end.

(** The transcript of the chat. *)
Definition transcript (p : Page) : list Message := chatMessages (dom p).

(** The result area shows [text] to the user. *)
Definition shows_error_text (p : Page) (text : string) : Prop :=
  result_visible p = true /\ includes text (planContent (dom p)) = true.

(** A trip submission that ends in a business-logic failure (the body's
    [success] is falsy) or in a transport failure (a promise rejected). *)
Definition trip_failed (o : FetchOutcome PlanData) : bool :=
  match o with
  | Rejected _ => true
  | Resolved _ data => negb (success data)
  end.

(** A chat send that fails: transport failure or non-OK status. *)
Definition chat_failed (o : FetchOutcome ChatData) : bool :=
  match o with
  | Rejected _ => true
  | Resolved ok _ => negb ok
  end.

(** The text of the assistant turn a settled chat request leads to. *)
Definition assistant_text (o : FetchOutcome ChatData) : string :=
  match o with
  | Rejected _ => "Error connecting to the server. Please try again."
  | Resolved true data => response data
  | Resolved false _ =>
      "Sorry, I couldn't process your question. Please try again."
  end.

(** The payload the specification asks for, field by field, from the raw
    form values (current handler). *)
Definition spec_trip_payload (f : Form) : list (string * jsval) :=
  [ ("source", VStr (source_value f));
    ("destination", VStr (destination_value f));
    ("start_date", VStr (startDate_value f));
    ("end_date", VStr (endDate_value f));
    ("budget", VNum (parseFloat (budget_value f)));
    ("num_travelers", VNum (parseInt (numTravelers_value f)));
    ("interests",
      VArr (map JsString.trim
                (JsString.split JsString.comma (interests_value f))));
    ("include_flights",
      VBool (match includeFlights_checked f with
             | Some b => b
             | None => false
             end)) ].

(** The user types [text] in the chat input. *)
Definition type_chat (text : string) (p : Page) : Page :=
  with_dom (with_chatInput text (dom p)) p.

(** The user alters the form. *)
Definition edit_form (f : Form) (p : Page) : Page := with_form f p.

End Spec.

Import Spec.

(* ================================================================== *)
(** ** The key handler, and the page as events reach it *)

Module Events.

Section Marked.
Variable marked : option (string -> string).

(** part_000 lines 150-155: the [keypress] listener of [#chatInput].
    It calls [sendMessage] and does not wait for it.  (script.js, lines
    165-170, has the same listener around its own [sendMessage].) *)
Definition chatInput_keypress (key : string) (p : Page) : Suspend unit :=
  if String.eqb key "Enter" then Part000.sendMessage marked p
  else Settled Returned p.

(** The page an async function leaves when it returns control. *)
Definition page_of {L} (s : Suspend L) : Page :=
  match s with
  | Settled _ q => q
  | Awaiting _ _ q => q
  end.

(** The request an async function has sent, if it waits. *)
Definition request_of {L} (s : Suspend L) : option Request :=
  match s with
  | Settled _ _ => None
  | Awaiting req _ _ => Some req
  end.

(** One turn of the event loop on a page that runs part_000: the user
    edits the form or types in the chat input, a handler starts, or a
    pending [fetch] settles.  A settling handler may carry any constants
    and any outcome: every interleaving of the real page is a sequence of
    such turns. *)
Inductive turn : Page -> Page -> Prop :=
| turn_edit (f : Form) p :
    turn p (edit_form f p)
| turn_type (text : string) p :
    turn p (type_chat text p)
| turn_submit p :
    turn p (page_of (Part000.submit p))
| turn_submit_settles l o p :
    turn p (snd (Part000.submit_resume marked l o p))
| turn_keypress key p :
    turn p (page_of (chatInput_keypress key p))
| turn_send p :
    turn p (page_of (Part000.sendMessage marked p))
| turn_chat_settles o p :
    turn p (snd (sendMessage_resume marked o p)).

Inductive reaches : Page -> Page -> Prop :=
| reaches_here p : reaches p p
| reaches_next p q r : reaches p q -> turn q r -> reaches p r.

End Marked.

End Events.

Export Events.

Module Behaviour.

(** [tokens.join(sep)] *)
Fixpoint join (sep : string) (tokens : list string) : string :=
  match tokens with
  | [] => EmptyString
  | [t] => t
  | t :: rest => t ++ sep ++ join sep rest
  end.

(** The text holds the character. *)
Fixpoint has_char (c : ascii) (s : string) : bool :=
  match s with
  | EmptyString => false
  | String d rest => Ascii.eqb d c || has_char c rest
  end.

Definition newline : ascii := ascii_of_nat 10.

(** A text with neither leading nor trailing white space, and no comma:
    what one interest looks like once parsed. *)
Definition clean_token (t : string) : bool :=
  String.eqb (JsString.trim t) t && negb (has_char JsString.comma t).

(** A chat turn as [addMessageToChat] marks it. *)
Definition marked_turn (m : Message) : bool :=
  is_user_message m || is_ai_message m.

Definition user_turn (marked_text : string) : Message :=
  {| className := "message user-message user"; innerHTML := marked_text |}.

Definition assistant_turn (marked_text : string) : Message :=
  {| className := "message ai-message ai"; innerHTML := marked_text |}.

(** The two addresses the current script talks to. *)
Definition known_endpoint (r : Request) : bool :=
  String.eqb (url r) "http://localhost:8000/plan-trip"
  || String.eqb (url r) "http://localhost:8000/chat".

(** The loading indicator of each variant is off. *)
Definition loading_off (p : Page) : bool :=
  String.eqb (loading_display (dom p)) "none".

Definition loading_on (p : Page) : bool :=
  String.eqb (loading_display (dom p)) "block".

(** The snapshot a successful answer stores, from the constants of the
    submit handler. *)
Definition snapshot_of (l : Locals) (plan_text : string) : Globals :=
  {| currentTravelPlan := plan_text;
     currentBudget := budget l;
     currentTravelers := numTravelers l;
     currentInterests := interests l;
     currentIncludeFlights := includeFlights l;
     currentSource := source l;
     currentDestination := destination l;
     currentStartDate := startDate l |}.

End Behaviour.

Import Behaviour.

(* ================================================================== *)
(** ** Numerals: what a number field holds, and what it denotes *)

Module Numerals.
















End Numerals.

Import Numerals.

(* ================================================================== *)
(** ** The wording of the parsing claims, apart from the code *)

Module Wording.

Definition first_char (s : string) : option ascii :=
  match s with
  | EmptyString => None
  | String c _ => Some c
  end.

Fixpoint last_char (s : string) : option ascii :=
  match s with
  | EmptyString => None
  | String c EmptyString => Some c
  | String _ rest => last_char rest
  end.

Definition not_ws (o : option ascii) : bool :=
  match o with
  | None => true
  | Some c => negb (JsString.is_ws c)
  end.

(** The text neither begins nor ends with a white space character. *)
Definition no_ws_at_ends (t : string) : bool :=
  not_ws (first_char t) && not_ws (last_char t).

(** [token] is [piece] without the white space around it. *)
Definition trimmed_of (piece token : string) : Prop :=
  exists lead trail,
    piece = lead ++ token ++ trail
    /\ whitespace_only lead = true
    /\ whitespace_only trail = true
    /\ no_ws_at_ends token = true.

(** [tokens] is the comma-split, white-space-trimmed list of [raw]: the
    text is cut at its commas, every piece kept, and each piece loses
    the white space around it. *)
Definition comma_split_trimmed (raw : string) (tokens : list string)
  : Prop :=
  exists pieces,
    pieces <> []
    /\ raw = join "," pieces
    /\ Forall (fun piece => has_char JsString.comma piece = false) pieces
    /\ Forall2 trimmed_of pieces tokens.











End Wording.

Import Wording.

(* ================================================================== *)
(** ** Facts about strings and parsing *)

Module ParseExamples.
Import JsString.
Example trim1 : trim "  art  " = "art". Proof. reflexivity. Qed.
Example trim2 : trim "   " = EmptyString. Proof. reflexivity. Qed.
Example trim3 : trim " a b " = "a b". Proof. reflexivity. Qed.
Example split1 : split comma "art, food" = ["art"; " food"]. Proof. reflexivity. Qed.
Example split2 : split comma EmptyString = [EmptyString]. Proof. reflexivity. Qed.
Example split3 : split comma "a,,b," = ["a"; EmptyString; "b"; EmptyString].
Proof. reflexivity. Qed.
Example pf1 : parseFloat "2000" = of_Z 2000. Proof. reflexivity. Qed.
Example pf2 : parseFloat " 12.50usd" = Finite (25 # 2)%Q. Proof. reflexivity. Qed.
Example pf3 : parseFloat "abc" = NaN. Proof. reflexivity. Qed.
Example pf4 : parseFloat "-1.5e2" = of_Z (-150). Proof. reflexivity. Qed.
Example pf5 : parseFloat "." = NaN. Proof. reflexivity. Qed.
Example pf6 : parseFloat ".5" = Finite (1 # 2)%Q. Proof. reflexivity. Qed.
Example pf7 : parseFloat EmptyString = NaN. Proof. reflexivity. Qed.
Example pf8 : parseFloat "-Infinity" = Infinity true. Proof. reflexivity. Qed.
Example pf9 : parseFloat "1e400" = Infinity false.
Proof. vm_compute. reflexivity. Qed.
Example pf10 : parseFloat "1e-400" = of_Z 0.
Proof. vm_compute. reflexivity. Qed.
Example pf11 :
  parseFloat "0.1" = Finite (3602879701896397 # 36028797018963968)%Q.
Proof. vm_compute. reflexivity. Qed.
Example pf12 : parseFloat "12abc" = of_Z 12.
Proof. vm_compute. reflexivity. Qed.
Example pf13 : parseFloat "1,000" = of_Z 1.
Proof. vm_compute. reflexivity. Qed.
Example pi1 : parseInt "2" = of_Z 2. Proof. reflexivity. Qed.
Example pi2 : parseInt "2.9" = of_Z 2. Proof. reflexivity. Qed.
Example pi3 : parseInt "0x1f" = of_Z 31. Proof. reflexivity. Qed.
Example pi4 : parseInt "two" = NaN. Proof. reflexivity. Qed.
Example pi5 : parseInt "9007199254740993" = of_Z 9007199254740992.
Proof. vm_compute. reflexivity. Qed.
End ParseExamples.

Section StringFacts.
Import JsString.

Lemma split_not_nil (sep : ascii) (s : string) : split sep s <> [].
Proof.
  destruct s as [|c s]; simpl; [discriminate|].
  destruct (Ascii.eqb c sep); [discriminate|].
  destruct (split sep s); discriminate.
Qed.

(** One token per separator, plus one. *)
Lemma split_length (sep : ascii) (s : string) :
  length (split sep s) = S (count_char sep s).
Proof.
  induction s as [|c s IH]; simpl; [reflexivity|].
  destruct (Ascii.eqb c sep); simpl.
  - now rewrite IH.
  - destruct (split sep s) as [|t ts] eqn:E.
    + now apply split_not_nil in E.
    + simpl in *. exact IH.
Qed.

(** A separator at the end opens a last, empty token. *)
Lemma split_trailing (sep : ascii) (s : string) :
  split sep (s ++ String sep EmptyString)
  = (split sep s ++ [EmptyString])%list.
Proof.
  induction s as [|c s IH]; simpl.
  - now rewrite Ascii.eqb_refl.
  - destruct (Ascii.eqb c sep); simpl.
    + now rewrite IH.
    + rewrite IH. destruct (split sep s) as [|t ts] eqn:E.
      * now apply split_not_nil in E.
      * reflexivity.
Qed.

Lemma trimStart_whitespace_only (s : string) :
  whitespace_only s = true -> trimStart s = EmptyString.
Proof.
  induction s as [|c s IH]; simpl; [reflexivity|].
  destruct (is_ws c); simpl; [exact IH | discriminate].
Qed.

Lemma trim_whitespace_only (s : string) :
  whitespace_only s = true -> trim s = EmptyString.
Proof.
  intros H. unfold trim. now rewrite (trimStart_whitespace_only _ H).
Qed.

Lemma trimEnd_empty (s : string) :
  trimEnd s = EmptyString -> whitespace_only s = true.
Proof.
  induction s as [|c s IH]; simpl; [reflexivity|].
  destruct (trimEnd s) eqn:E; [|discriminate].
  destruct (is_ws c); [intros _; now apply IH | discriminate].
Qed.

Lemma trimStart_empty (s : string) :
  whitespace_only (trimStart s) = true -> whitespace_only s = true.
Proof.
  induction s as [|c s IH]; simpl; [reflexivity|].
  destruct (is_ws c) eqn:E; simpl; [exact IH|].
  now rewrite E.
Qed.

(** The guard [!message] fires exactly on white-space-only input. *)
Lemma trim_truthy (s : string) :
  truthy (trim s) = negb (whitespace_only s).
Proof.
  destruct (whitespace_only s) eqn:W.
  - now rewrite (trim_whitespace_only _ W).
  - destruct (trim s) eqn:T; [|reflexivity].
    unfold trim in T. apply trimEnd_empty, trimStart_empty in T.
    congruence.
Qed.

End StringFacts.

(* ================================================================== *)
(** ** Running the handlers symbolically *)

Create HintDb js discriminated.

#[global] Hint Unfold
  Js.ret Js.throw Js.bind Js.gets Js.modify Js.try_catch Js.finally
  Js.await Js.alert Js.call_fetch Js.set_dom Js.set_var Js.completion
  Common.marked_parse Common.addMessageToChat Common.sendMessage_resume
  Part000.readForm Part000.submit Part000.show_plan Part000.show_error
  Part000.submit_resume Part000.sendMessage Part000.run_submit
  Part000.run_sendMessage
  ScriptV1.readForm ScriptV1.submit ScriptV1.submit_resume
  ScriptV1.run_submit
  ScriptV2.readForm ScriptV2.submit ScriptV2.show_plan
  ScriptV2.submit_resume ScriptV2.sendMessage ScriptV2.run_submit
  ScriptV2.run_sendMessage
  Spec.transcript Spec.type_chat Spec.edit_form : js.

(** Unfold the handlers and the monad, then compute. *)
Ltac js_run := autounfold with js; cbn.

(** Split a settled [fetch] into its cases. *)
Ltac case_outcome o :=
  let m := fresh "m" in
  let ok := fresh "ok" in
  let data := fresh "data" in
  destruct o as [m | ok data].


(* ================================================================== *)
(** ** The request a submission sends (C4, C5, C9) *)

Lemma snd_settle {A B} (f : A -> B) (x : A * Page) :
  snd (let (r, q) := x in (f r, q)) = snd x.
Proof. now destruct x. Qed.

Lemma fst_settle {A B} (f : A -> B) (x : A * Page) :
  fst (let (r, q) := x in (f r, q)) = f (fst x).
Proof. now destruct x. Qed.

(** For every page the current handler reaches [fetch], with the payload
    of the specification; nothing else changes but the two indicators. *)
Lemma Part000_submit_awaits (p : Page) :
  exists l,
    Part000.readForm p = (inr l, p)
    /\ Part000.trip_request l
       = {| url := "http://localhost:8000/plan-trip";
            body := spec_trip_payload (form p) |}
    /\ Part000.submit p
       = Awaiting (Part000.trip_request l) l
           (with_requests (requests p ++ [Part000.trip_request l])
              (with_dom
                 (with_result_display "none"
                    (with_loading_display "block" (dom p))) p)).
Proof.
  eexists. split; [reflexivity|]. split; reflexivity.
Qed.



(* ================================================================== *)
(** ** The guard of sendMessage (C6) *)

(** C6. A call of sendMessage on an input that is empty or made of white
    space only returns at once: no request is sent and the page, its
    transcript included, is left as it was (both variants). *)
Theorem C6_blank_message_is_noop :
  forall (marked : option (string -> string)) (p : Page),
    whitespace_only (chatInput (dom p)) = true ->
    Part000.sendMessage marked p = Settled Returned p
    /\ ScriptV2.sendMessage marked p = Settled Returned p
    /\ forall o,
         let q := snd (Part000.run_sendMessage marked o p) in
         requests q = requests p /\ transcript q = transcript p.
Proof.
  intros marked p H.
  assert (E : Part000.sendMessage marked p = Settled Returned p).
  { unfold Part000.sendMessage. now rewrite trim_truthy, H. }
  split; [exact E|]. split.
  - unfold ScriptV2.sendMessage. now rewrite trim_truthy, H.
  - intros o. unfold Part000.run_sendMessage. rewrite E. now split.
Qed.

Lemma C6_blank_message_witness :
  whitespace_only (chatInput (dom (type_chat "   " Samples.chatting_page)))
  = true
  /\ Part000.sendMessage None (type_chat "   " Samples.chatting_page)
     = Settled Returned (type_chat "   " Samples.chatting_page).
Proof.
  split; [reflexivity|].
  apply (C6_blank_message_is_noop None
           (type_chat "   " Samples.chatting_page)).
  reflexivity.
Defined.

(* ================================================================== *)
(** ** The chat session (C7, C8) *)

Lemma trim_nonempty_truthy (s : string) :
  JsString.trim s <> EmptyString -> JsString.truthy (JsString.trim s) = true.
Proof. destruct (JsString.trim s); [congruence | reflexivity]. Qed.

(** With the renderer loaded, the second half of sendMessage appends one
    assistant turn, whatever [fetch] settled to, and returns. *)
Lemma resume_appends_assistant_turn parse o (r : Page) :
  sendMessage_resume (Some parse) o r
  = (inr tt,
     with_dom
       (with_chatMessages
          (chatMessages (dom r)
             ++ [{| className := "message ai-message ai";
                    innerHTML := parse (assistant_text o) |}])
          (dom r)) r).
Proof. case_outcome o; [reflexivity|]. destruct ok; reflexivity. Qed.

(** With the renderer loaded, the first half appends the user turn and
    calls [fetch]. *)
Lemma Part000_send_awaits parse (p : Page) :
  JsString.trim (chatInput (dom p)) <> EmptyString ->
  Part000.sendMessage (Some parse) p
  = Awaiting
      (Part000.chat_request (JsString.trim (chatInput (dom p))) (vars p)) tt
      (with_requests
         (requests p
            ++ [Part000.chat_request (JsString.trim (chatInput (dom p)))
                  (vars p)])
         (with_dom
            (with_chatMessages
               (chatMessages (dom p)
                  ++ [{| className := "message user-message user";
                         innerHTML :=
                           parse (JsString.trim (chatInput (dom p))) |}])
               (with_chatInput EmptyString (dom p))) p)).
Proof.
  intros H. unfold Part000.sendMessage.
  rewrite (trim_nonempty_truthy _ H). reflexivity.
Qed.

Lemma ScriptV2_send_awaits parse (p : Page) :
  JsString.trim (chatInput (dom p)) <> EmptyString ->
  ScriptV2.sendMessage (Some parse) p
  = Awaiting
      (ScriptV2.chat_request (JsString.trim (chatInput (dom p))) (vars p)) tt
      (with_requests
         (requests p
            ++ [ScriptV2.chat_request (JsString.trim (chatInput (dom p)))
                  (vars p)])
         (with_dom
            (with_chatMessages
               (chatMessages (dom p)
                  ++ [{| className := "message user-message user";
                         innerHTML :=
                           parse (JsString.trim (chatInput (dom p))) |}])
               (with_chatInput EmptyString (dom p))) p)).
Proof.
  intros H. unfold ScriptV2.sendMessage.
  rewrite (trim_nonempty_truthy _ H). reflexivity.
Qed.

(** Only a loaded renderer lets sendMessage reach [fetch]. *)
Lemma Part000_send_awaits_inv marked (p : Page) req u q :
  Part000.sendMessage marked p = Awaiting req u q ->
  exists parse,
    marked = Some parse
    /\ JsString.trim (chatInput (dom p)) <> EmptyString
    /\ req = Part000.chat_request (JsString.trim (chatInput (dom p))) (vars p)
    /\ vars q = vars p.
Proof.
  unfold Part000.sendMessage.
  destruct (JsString.trim (chatInput (dom p))) as [|c s] eqn:T; cbn;
    [discriminate|].
  destruct marked as [parse|]; js_run; [|discriminate].
  intros H. inversion H; subst. exists parse.
  repeat split; congruence.
Qed.

(** X19. With the markdown renderer loaded, a call of
    sendMessage on a text that is not empty once trimmed appends one
    user turn and calls [fetch] (so the turn is there before the call
    settles); when the call settles, whatever else happened meanwhile,
    exactly one assistant turn is appended: the answer on success, a
    fallback text on failure.  A send that runs undisturbed makes the
    transcript two turns longer (both variants). *)
Theorem send_appends_two_turns_with_renderer :
  forall (parse : string -> string) (p : Page),
    JsString.trim (chatInput (dom p)) <> EmptyString ->
    let message := JsString.trim (chatInput (dom p)) in
    (exists q,
       Part000.sendMessage (Some parse) p
       = Awaiting (Part000.chat_request message (vars p)) tt q
       /\ transcript q
          = (transcript p
               ++ [{| className := "message user-message user";
                      innerHTML := parse message |}])%list
       /\ requests q
          = (requests p ++ [Part000.chat_request message (vars p)])%list)
    /\ (forall o r,
          exists r',
            sendMessage_resume (Some parse) o r = (inr tt, r')
            /\ transcript r'
               = (transcript r
                    ++ [{| className := "message ai-message ai";
                           innerHTML := parse (assistant_text o) |}])%list
            /\ requests r' = requests r)
    /\ (forall o,
          length (transcript (snd (Part000.run_sendMessage (Some parse) o p)))
          = length (transcript p) + 2)
    /\ (forall o,
          length (transcript (snd (ScriptV2.run_sendMessage (Some parse) o p)))
          = length (transcript p) + 2).
Proof.
  intros parse p H message. repeat split.
  - eexists. split; [apply (Part000_send_awaits parse p H)|].
    split; reflexivity.
  - intros o r. eexists. split; [apply resume_appends_assistant_turn|].
    split; reflexivity.
  - intros o. unfold Part000.run_sendMessage.
    rewrite (Part000_send_awaits parse p H), snd_settle.
    rewrite resume_appends_assistant_turn. cbn. unfold transcript.
    rewrite !length_app. cbn. lia.
  - intros o. unfold ScriptV2.run_sendMessage.
    rewrite (ScriptV2_send_awaits parse p H), snd_settle.
    rewrite resume_appends_assistant_turn. cbn. unfold transcript.
    rewrite !length_app. cbn. lia.
Qed.

Lemma send_appends_two_turns_witness :
  JsString.trim (chatInput (dom Samples.chatting_page)) <> EmptyString
  /\ length
       (transcript
          (snd (Part000.run_sendMessage (Some Samples.paragraph)
                  (Resolved true {| response := "Take an umbrella." |})
                  Samples.chatting_page)))
     = 4.
Proof.
  assert (H : JsString.trim (chatInput (dom Samples.chatting_page))
              <> EmptyString) by (cbn; discriminate).
  split; [exact H|].
  destruct (send_appends_two_turns_with_renderer Samples.paragraph
              Samples.chatting_page H) as (_ & _ & Hlen & _).
  exact (Hlen (Resolved true {| response := "Take an umbrella." |})).
Defined.

(** C8, amended. When a chat send fails, the assistant turn appended
    carries a fixed fallback text chosen by the kind of failure: one text
    for a non-OK status, another for a transport failure (a rejected
    [fetch] or an unreadable body).  The call returns normally and shows
    no alert: no error reaches the caller. *)
Theorem C8_failed_send_appends_fallback :
  forall (marked : option (string -> string)) (p : Page) req u q
         (o : FetchOutcome ChatData),
    Part000.sendMessage marked p = Awaiting req u q ->
    chat_failed o = true ->
    forall r : Page,
    exists parse r',
      marked = Some parse
      /\ sendMessage_resume marked o r = (inr tt, r')
      /\ transcript r'
         = (transcript r
              ++ [{| className := "message ai-message ai";
                     innerHTML :=
                       parse
                         match o with
                         | Rejected _ =>
                             "Error connecting to the server. Please try again."
                         | Resolved _ _ =>
                             "Sorry, I couldn't process your question. Please try again."
                         end |}])%list
      /\ alerts r' = alerts r
      /\ requests r' = requests r.
Proof.
  intros marked p req u q o Hsend Hfail r.
  destruct (Part000_send_awaits_inv _ _ Hsend) as (parse & -> & _).
  exists parse. eexists. split; [reflexivity|].
  split; [apply resume_appends_assistant_turn|].
  case_outcome o; [repeat split|].
  destruct ok; [discriminate | repeat split].
Qed.

Lemma C8_failed_send_witness :
  (exists req q,
     Part000.sendMessage (Some Samples.paragraph) Samples.chatting_page
     = Awaiting req tt q)
  /\ chat_failed (Rejected (D := ChatData) "Failed to fetch") = true
  /\ exists r',
       sendMessage_resume (Some Samples.paragraph)
         (Rejected "Failed to fetch") Samples.fresh_page
       = (inr tt, r')
       /\ transcript r'
          = [{| className := "message ai-message ai";
                innerHTML :=
                  "<p>Error connecting to the server. Please try again.</p>" |}].
Proof.
  split; [do 2 eexists; reflexivity|].
  split; [reflexivity|].
  destruct (@C8_failed_send_appends_fallback
              (Some Samples.paragraph) Samples.chatting_page _ _ _
              (Rejected "Failed to fetch") eq_refl eq_refl
              Samples.fresh_page)
    as (parse & r' & Hm & Hr & Ht & _).
  exists r'. split; [exact Hr|].
  rewrite Ht. injection Hm as <-. reflexivity.
Defined.

(** C8 as worded fails: no single text serves every failure.  A rejected
    [fetch] and a non-OK answer leave different turns. *)
Lemma C8_counterexample :
  ~ exists text : string,
      forall o : FetchOutcome ChatData,
        chat_failed o = true ->
        transcript
          (snd (sendMessage_resume (Some Samples.paragraph) o
                  Samples.fresh_page))
        = [{| className := "message ai-message ai";
              innerHTML := Samples.paragraph text |}].
Proof.
  intros [text H].
  pose proof (H (Rejected "Failed to fetch") eq_refl) as H1.
  pose proof (H (Resolved false {| response := EmptyString |}) eq_refl) as H2.
  cbv in H1, H2. congruence.
Qed.

(** The snapshot variables after a successful answer are the constants
    the handler read from the form before it called [fetch]. *)
Lemma Part000_success_stores_snapshot marked l ok data (r : Page) :
  success data = true ->
  vars (snd (Part000.submit_resume marked l (Resolved ok data) r))
  = {| currentTravelPlan := plan data;
       currentBudget := budget l;
       currentTravelers := numTravelers l;
       currentInterests := interests l;
       currentIncludeFlights := includeFlights l;
       currentSource := source l;
       currentDestination := destination l;
       currentStartDate := startDate l |}.
Proof.
  intros H. destruct data as [succ plan_text fd er de]. cbn in H. subst succ.
  destruct marked; destruct fd as [[|? ?]|]; reflexivity.
Qed.

(** The second half of sendMessage assigns no script variable. *)
Lemma resume_keeps_vars marked o (r : Page) :
  vars (snd (sendMessage_resume marked o r)) = vars r.
Proof.
  case_outcome o; [|destruct ok]; destruct marked; reflexivity.
Qed.

(** C7. Every chat request that leaves is the object built, at that
    call, from the question and the stored snapshot variables, and from
    nothing else: altering the form leaves it the same.  No part of
    sendMessage assigns a snapshot variable.  The snapshot holds what the
    submit handler read from the form before it called [fetch], stored
    when the successful answer arrives, whatever the form holds by
    then. *)
Theorem C7_chat_request_from_snapshot :
  forall (marked : option (string -> string)) (p : Page) req u q,
    Part000.sendMessage marked p = Awaiting req u q ->
    let g := vars p in
    req = {| url := "http://localhost:8000/chat";
             body := [ ("question",
                         VStr (JsString.trim (chatInput (dom p))));
                       ("travel_plan", VStr (currentTravelPlan g));
                       ("budget", VNum (currentBudget g));
                       ("travelers", VNum (currentTravelers g));
                       ("interests", VArr (currentInterests g));
                       ("include_flights", VBool (currentIncludeFlights g));
                       ("source", VStr (currentSource g));
                       ("destination", VStr (currentDestination g));
                       ("start_date", VStr (currentStartDate g)) ] |}
    /\ vars q = vars p
    /\ (forall o r, vars (snd (sendMessage_resume marked o r)) = vars r)
    /\ (forall f, exists q',
          Part000.sendMessage marked (edit_form f p) = Awaiting req u q')
    /\ (forall p0 : Page,
        exists l sreq q0,
          Part000.submit p0 = Awaiting sreq l q0
          /\ forall ok data f r,
               success data = true ->
               let g' := vars (snd (Part000.submit_resume marked l
                                      (Resolved ok data) (edit_form f r))) in
               currentTravelPlan g' = plan data
               /\ currentBudget g' = parseFloat (budget_value (form p0))
               /\ currentTravelers g'
                  = parseInt (numTravelers_value (form p0))
               /\ currentInterests g'
                  = parse_interests (interests_value (form p0))
               /\ currentIncludeFlights g'
                  = match includeFlights_checked (form p0) with
                    | Some b => b
                    | None => false
                    end
               /\ currentSource g' = source_value (form p0)
               /\ currentDestination g' = destination_value (form p0)
               /\ currentStartDate g' = startDate_value (form p0)).
Proof.
  intros marked p req u q Hsend g.
  destruct (Part000_send_awaits_inv _ _ Hsend) as (parse & -> & Ht & -> & Hv).
  split; [reflexivity|]. split; [exact Hv|].
  split; [intros; apply resume_keeps_vars|]. split.
  - intros f. destruct u. eexists.
    apply (Part000_send_awaits parse (edit_form f p)). exact Ht.
  - intros p0. do 3 eexists. split; [reflexivity|].
    intros ok data f r Hs g'. subst g'.
    rewrite (Part000_success_stores_snapshot _ _ _ _ _ Hs). cbn.
    repeat split.
Qed.

Lemma C7_chat_request_witness :
  exists q,
    Part000.sendMessage (Some Samples.paragraph) Samples.chatting_page
    = Awaiting
        {| url := "http://localhost:8000/chat";
           body := [ ("question", VStr "What about rain?");
                     ("travel_plan", VStr "Day 1: Montmartre");
                     ("budget", VNum (of_Z 900));
                     ("travelers", VNum (of_Z 1));
                     ("interests", VArr ["walks"]);
                     ("include_flights", VBool false);
                     ("source", VStr "Lyon");
                     ("destination", VStr "Paris");
                     ("start_date", VStr "2024-05-01") ] |} tt q
    /\ vars q = vars Samples.chatting_page.
Proof.
  eexists.
  assert (H : Part000.sendMessage (Some Samples.paragraph)
                Samples.chatting_page
              = Awaiting
                  (Part000.chat_request "What about rain?"
                     (vars Samples.chatting_page)) tt
                  (with_requests
                     [Part000.chat_request "What about rain?"
                        (vars Samples.chatting_page)]
                     (with_dom
                        (with_chatMessages
                           (chatMessages (dom Samples.chatting_page)
                              ++ [{| className := "message user-message user";
                                     innerHTML := "<p>What about rain?</p>" |}])
                           (with_chatInput EmptyString
                              (dom Samples.chatting_page)))
                        Samples.chatting_page))) by reflexivity.
  destruct (C7_chat_request_from_snapshot _ _ H) as (Hreq & Hv & _).
  split; [exact H | exact Hv].
Defined.

(* ================================================================== *)
(** ** What a submission shows (C1, C2, C10) *)

Lemma prefix_app (s t : string) : String.prefix s (s ++ t) = true.
Proof.
  induction s as [|c s IH]; cbn; [now destruct t|].
  destruct (ascii_dec c c); [exact IH | congruence].
Qed.

Lemma includes_prefix (s h : string) :
  String.prefix s h = true -> includes s h = true.
Proof. intros H. destruct h; cbn [includes]; now rewrite H. Qed.

Lemma includes_app (s a b : string) : includes s (a ++ s ++ b) = true.
Proof.
  induction a as [|c a IH].
  - change (EmptyString ++ s ++ b) with (s ++ b).
    apply includes_prefix, prefix_app.
  - cbn [append includes]. rewrite IH. apply orb_true_r.
Qed.

(** The success branch of the current handler when nothing throws: the
    renderer is loaded, or the answer carries no flight details. *)
Lemma Part000_success_shows_plan marked l ok data (r : Page) :
  success data = true ->
  marked <> None \/ truthy_opt (flight_details data) = false ->
  exists r',
    Part000.submit_resume marked l (Resolved ok data) r = (inr tt, r')
    /\ result_visible r' = true
    /\ transcript r' = []
    /\ chat_active r' = true
    /\ flight_section_visible r' = truthy_opt (flight_details data)
    /\ planContent (dom r')
       = match marked with
         | Some parse => parse (plan data)
         | None => "<pre>" ++ plan data ++ "</pre>"
         end
    /\ alerts r' = alerts r
    /\ loading_display (dom r') = "none".
Proof.
  intros Hs Hm. destruct data as [succ plan_text fd er de].
  cbn in Hs, Hm. subst succ.
  destruct marked as [parse|], fd as [[|c s]|]; cbn in Hm;
    try (destruct Hm; congruence);
    eexists; (split; [js_run; reflexivity|]); cbn; repeat split.
Qed.

(** The second variant, with the renderer loaded. *)
Lemma ScriptV2_success_shows_plan parse l data (r : Page) :
  exists r',
    ScriptV2.submit_resume (Some parse) l (Resolved true data) r
    = (inr tt, r')
    /\ result_hidden (dom r') = false
    /\ transcript r' = []
    /\ chat_active r' = true
    /\ flight_section_visible r' = truthy_opt (flight_details data)
    /\ planContent (dom r') = parse (plan data)
    /\ alerts r' = alerts r.
Proof.
  destruct data as [succ plan_text [[|c s]|] er de];
    eexists; (split; [js_run; reflexivity|]); cbn; repeat split.
Qed.

(** C1, at the input where the code departs from it: the answer is
    successful and carries flight details, and the markdown library is
    not loaded.  The plan is shown through the guarded fallback of line
    50, the transcript is cleared and the chat box shown; then line 65
    calls the renderer without the guard and throws.  The handler ends
    in its [catch]: an alert, the flight section untouched, the result
    area left as it was, which after a submission is hidden. *)
Theorem C1_flight_details_without_renderer :
  (forall l ok plan_text c rest er de (r : Page),
     exists r',
       Part000.submit_resume None l
         (Resolved ok
            {| success := true; plan := plan_text;
               flight_details := Some (String c rest);
               error := er; detail := de |}) r
       = (inr tt, r')
       /\ alerts r'
          = (alerts r
               ++ ["Error connecting to the server: marked is not defined"])%list
       /\ result_display (dom r') = result_display (dom r)
       /\ result_hidden (dom r') = result_hidden (dom r)
       /\ flightDetails_hidden (dom r') = flightDetails_hidden (dom r)
       /\ flightContent (dom r') = flightContent (dom r)
       /\ planContent (dom r') = "<pre>" ++ plan_text ++ "</pre>"
       /\ transcript r' = []
       /\ chat_active r' = true)
  /\ (forall p ok plan_text c rest er de,
        result_visible
          (snd (Part000.run_submit None
                  (Resolved ok
                     {| success := true; plan := plan_text;
                        flight_details := Some (String c rest);
                        error := er; detail := de |}) p))
        = false)
  /\ (let p := snd (Part000.run_submit None (Resolved true Samples.plan_ok)
                      Samples.fresh_page) in
      result_visible p = false
      /\ flight_section_visible p = false
      /\ chat_active p = true
      /\ alerts p
         = ["Error connecting to the server: marked is not defined"]).
Proof.
  split; [|split].
  - intros. eexists. split; [js_run; reflexivity|]. cbn. repeat split.
  - intros. js_run. reflexivity.
  - vm_compute. repeat split.
Qed.

(** C2, amended. When the body of the answer has a falsy [success], the
    current handler makes the result area visible and writes into it, in
    red, the answer's [error] when that is a non-empty text and a fixed
    text otherwise (so for an answer that carries only [detail]); it
    touches neither the chat box, nor the transcript, nor the snapshot,
    and shows no alert.  The second variant, on a non-OK status, and the
    first, on a falsy [success], show an alert instead and leave the
    result area and the chat as they were. *)
Theorem C2_failure_is_reported :
  (forall marked l ok data (r : Page),
     success data = false ->
     exists r',
       Part000.submit_resume marked l (Resolved ok data) r = (inr tt, r')
       /\ result_visible r' = true
       /\ planContent (dom r')
          = "<span style='color:red;'>"
              ++ match error data with
                 | Some (String c s) => String c s
                 | _ => "Error generating travel plan. Please try again."
                 end
              ++ "</span>"
       /\ (forall c s, error data = Some (String c s) ->
             shows_error_text r' (String c s))
       /\ chatBox_hidden (dom r') = chatBox_hidden (dom r)
       /\ transcript r' = transcript r
       /\ vars r' = vars r
       /\ alerts r' = alerts r)
  /\ (forall marked l data (r : Page),
     exists r',
       ScriptV2.submit_resume marked l (Resolved false data) r = (inr tt, r')
       /\ alerts r' = (alerts r ++ [("Error: " ++ to_string (detail data))%string])%list
       /\ result_hidden (dom r') = result_hidden (dom r)
       /\ result_display (dom r') = result_display (dom r)
       /\ planContent (dom r') = planContent (dom r)
       /\ chatBox_hidden (dom r') = chatBox_hidden (dom r)
       /\ transcript r' = transcript r)
  /\ (forall l ok data (r : Page),
     success data = false ->
     exists r',
       ScriptV1.submit_resume l (Resolved ok data) r = (inr tt, r')
       /\ alerts r'
          = (alerts r ++ ["Error generating travel plan. Please try again."])%list
       /\ result_display (dom r') = result_display (dom r)
       /\ planContent (dom r') = planContent (dom r)).
Proof.
  split; [|split].
  - intros marked l ok data r Hs.
    destruct data as [succ plan_text fd er de]. cbn in Hs. subst succ.
    eexists. split; [js_run; reflexivity|]. cbn.
    split; [reflexivity|].
    split; [destruct er as [[|c s]|]; reflexivity|].
    split; [|repeat split].
    intros c s ->. split; [reflexivity|]. cbn [dom planContent].
    apply (includes_app (String c s) "<span style='color:red;'>" "</span>").
  - intros. eexists. split; [js_run; reflexivity|]. cbn. repeat split.
  - intros l ok data r Hs.
    destruct data as [succ plan_text fd er de]. cbn in Hs. subst succ.
    eexists. split; [js_run; reflexivity|]. cbn. repeat split.
Qed.


Lemma C2_failure_witness :
  success Samples.plan_failed = false
  /\ exists r',
       Part000.submit_resume (Some Samples.paragraph) Samples.paris_locals
         (Resolved true Samples.plan_failed) Samples.chatting_page
       = (inr tt, r')
       /\ planContent (dom r')
          = "<span style='color:red;'>Invalid dates</span>"
       /\ shows_error_text r' "Invalid dates"
       /\ transcript r' = transcript Samples.chatting_page.
Proof.
  split; [reflexivity|].
  destruct C2_failure_is_reported as (H & _).
  destruct (H (Some Samples.paragraph) Samples.paris_locals true
              Samples.plan_failed Samples.chatting_page eq_refl)
    as (r' & Hr & _ & Hc & Hshow & _ & Ht & _).
  exists r'. split; [exact Hr|]. split; [exact Hc|].
  split; [|exact Ht].
  apply Hshow. reflexivity.
Defined.

(** C2 as worded fails on the second shape of failure, and in the other
    variants on both.  For a non-OK answer whose body carries the text in
    [detail], the current handler shows its fixed text, not that one; the
    second variant shows an alert and leaves the result area hidden; so
    does the first variant for a falsy [success]. *)
Lemma C2_counterexample :
  ~ shows_error_text
      (snd (Part000.run_submit (Some Samples.paragraph)
              (Resolved false Samples.plan_rejected) Samples.fresh_page))
      "Quota exceeded"
  /\ ~ shows_error_text
         (snd (ScriptV2.run_submit (Some Samples.paragraph)
                 (Resolved false Samples.plan_rejected) Samples.fresh_page))
         "Quota exceeded"
  /\ ~ shows_error_text
         (snd (ScriptV1.run_submit
                 (Resolved true Samples.plan_failed) Samples.fresh_page))
         "Invalid dates"
  /\ alerts (snd (ScriptV2.run_submit (Some Samples.paragraph)
                    (Resolved false Samples.plan_rejected)
                    Samples.fresh_page))
     = ["Error: Quota exceeded"].
Proof.
  repeat split; intros [Hv Hi]; vm_compute in Hv, Hi; discriminate.
Qed.

(** C10. A submission of the current handler that ends in a
    business-logic failure (falsy [success]) or in a transport failure
    (a rejected promise) assigns none of the eight snapshot variables and
    leaves the transcript as it was, both when it runs undisturbed and
    when it resumes on any later page; a chat message sent afterwards
    carries the snapshot of the plan stored before. *)
Theorem C10_failed_submission_keeps_snapshot :
  forall (marked : option (string -> string)) (o : FetchOutcome PlanData),
    trip_failed o = true ->
    (forall p : Page,
       let p' := snd (Part000.run_submit marked o p) in
       vars p' = vars p /\ transcript p' = transcript p
       /\ chatBox_hidden (dom p') = chatBox_hidden (dom p))
    /\ (forall l (r : Page),
          let r' := snd (Part000.submit_resume marked l o r) in
          vars r' = vars r /\ transcript r' = transcript r)
    /\ (forall (p : Page) text req u q,
          Part000.sendMessage marked
            (type_chat text (snd (Part000.run_submit marked o p)))
          = Awaiting req u q ->
          req = Part000.chat_request (JsString.trim text) (vars p)).
Proof.
  intros marked o Hf.
  assert (R : forall l (r : Page),
             let r' := snd (Part000.submit_resume marked l o r) in
             vars r' = vars r /\ transcript r' = transcript r
             /\ chatBox_hidden (dom r') = chatBox_hidden (dom r)).
  { intros l r. case_outcome o; [js_run; repeat split|].
    destruct data as [succ plan_text fd er de]. cbn in Hf.
    destruct succ; [discriminate|]. js_run. repeat split. }
  assert (P : forall p : Page,
             let p' := snd (Part000.run_submit marked o p) in
             vars p' = vars p /\ transcript p' = transcript p
             /\ chatBox_hidden (dom p') = chatBox_hidden (dom p)).
  { intros p. cbn zeta. unfold Part000.run_submit.
    destruct (Part000_submit_awaits p) as (l & _ & _ & ->).
    rewrite snd_settle.
    destruct (R l (with_requests (requests p ++ [Part000.trip_request l])
                     (with_dom
                        (with_result_display "none"
                           (with_loading_display "block" (dom p))) p)))
      as (Hv & Ht & Hc).
    rewrite Hv, Ht, Hc. repeat split. }
  split; [exact P|]. split.
  - intros l r. destruct (R l r) as (Hv & Ht & _). now split.
  - intros p text req u q Hs.
    destruct (Part000_send_awaits_inv _ _ Hs) as (parse & _ & _ & -> & _).
    destruct (P p) as (Hv & _). cbn. cbn in Hv. now rewrite Hv.
Qed.

Lemma C10_failed_submission_witness :
  trip_failed (Resolved true Samples.plan_failed) = true
  /\ vars (snd (Part000.run_submit (Some Samples.paragraph)
                  (Resolved true Samples.plan_failed)
                  Samples.chatting_page))
     = vars Samples.chatting_page
  /\ transcript (snd (Part000.run_submit (Some Samples.paragraph)
                        (Resolved true Samples.plan_failed)
                        Samples.chatting_page))
     = transcript Samples.chatting_page.
Proof.
  split; [reflexivity|].
  destruct (@C10_failed_submission_keeps_snapshot
              (Some Samples.paragraph)
              (Resolved true Samples.plan_failed) eq_refl) as (H & _).
  destruct (H Samples.chatting_page) as (Hv & Ht & _).
  split; [exact Hv | exact Ht].
Defined.

(* ================================================================== *)
(** ** More on the parsing of the interests field *)

Section InterestsFacts.
Import JsString.

Definition no_leading_ws (s : string) : bool :=
  match s with
  | EmptyString => true
  | String c _ => negb (is_ws c)
  end.

Lemma trimStart_no_leading_ws (s : string) :
  no_leading_ws (trimStart s) = true.
Proof.
  induction s as [|c s IH]; cbn; [reflexivity|].
  destruct (is_ws c) eqn:E; [exact IH|]. cbn. now rewrite E.
Qed.

Lemma trimStart_fixed (s : string) :
  no_leading_ws s = true -> trimStart s = s.
Proof.
  destruct s as [|c s]; cbn; [reflexivity|].
  now destruct (is_ws c).
Qed.

Lemma trimEnd_no_leading_ws (s : string) :
  no_leading_ws s = true -> no_leading_ws (trimEnd s) = true.
Proof.
  destruct s as [|c s]; cbn; [reflexivity|].
  intros H. destruct (trimEnd s); [|exact H].
  destruct (is_ws c) eqn:E; [reflexivity|]. cbn. now rewrite E.
Qed.

Lemma trimEnd_idempotent (s : string) : trimEnd (trimEnd s) = trimEnd s.
Proof.
  induction s as [|c s IH]; cbn; [reflexivity|].
  destruct (trimEnd s) as [|d t] eqn:E.
  - destruct (is_ws c) eqn:W; cbn; [reflexivity|]. now rewrite W.
  - cbn [trimEnd]. cbn [trimEnd] in IH. now rewrite IH.
Qed.

Lemma trim_idempotent (s : string) : trim (trim s) = trim s.
Proof.
  unfold trim.
  rewrite (trimStart_fixed (trimEnd (trimStart s))).
  - apply trimEnd_idempotent.
  - apply trimEnd_no_leading_ws, trimStart_no_leading_ws.
Qed.

Lemma append_assoc (s t u : string) : (s ++ t) ++ u = s ++ t ++ u.
Proof. induction s as [|c s IH]; cbn; [reflexivity | now rewrite IH]. Qed.

Lemma has_char_app (c : ascii) (s t : string) :
  has_char c (s ++ t) = has_char c s || has_char c t.
Proof.
  induction s as [|d s IH]; cbn; [reflexivity|].
  now rewrite IH, orb_assoc.
Qed.

Lemma has_char_trimStart (c : ascii) (s : string) :
  has_char c s = false -> has_char c (trimStart s) = false.
Proof.
  induction s as [|d s IH]; cbn; [reflexivity|].
  intros H. apply orb_false_iff in H as [H1 H2].
  destruct (is_ws d); [now apply IH|]. cbn. now rewrite H1, H2.
Qed.

Lemma has_char_trimEnd (c : ascii) (s : string) :
  has_char c s = false -> has_char c (trimEnd s) = false.
Proof.
  induction s as [|d s IH]; cbn; [reflexivity|].
  intros H. apply orb_false_iff in H as [H1 H2].
  specialize (IH H2). destruct (trimEnd s) as [|e t].
  - destruct (is_ws d); cbn; [reflexivity|]. now rewrite H1.
  - cbn. cbn in IH. now rewrite H1, IH.
Qed.

(** No piece of a split holds the separator. *)
Lemma split_pieces_free (sep : ascii) (s : string) :
  Forall (fun t => has_char sep t = false) (split sep s).
Proof.
  induction s as [|c s IH]; cbn.
  - repeat constructor.
  - destruct (Ascii.eqb c sep) eqn:E.
    + constructor; [reflexivity | exact IH].
    + destruct (split sep s) as [|t ts].
      * repeat constructor. cbn. now rewrite E.
      * inversion IH; subst. constructor; [|assumption].
        cbn. now rewrite E.
Qed.

(** A text without the separator is its own single piece. *)
Lemma split_free (sep : ascii) (s : string) :
  has_char sep s = false -> split sep s = [s].
Proof.
  induction s as [|c s IH]; cbn; [reflexivity|].
  intros H. apply orb_false_iff in H as [H1 H2].
  rewrite H1, (IH H2). reflexivity.
Qed.

Lemma split_first_piece (sep : ascii) (t rest : string) :
  has_char sep t = false ->
  split sep (t ++ String sep rest) = t :: split sep rest.
Proof.
  induction t as [|c t IH]; cbn.
  - intros _. now rewrite Ascii.eqb_refl.
  - intros H. apply orb_false_iff in H as [H1 H2].
    rewrite H1, (IH H2). reflexivity.
Qed.

Lemma whitespace_has_no_comma (s : string) :
  whitespace_only s = true -> has_char comma s = false.
Proof.
  induction s as [|c s IH]; cbn; [reflexivity|].
  intros H. apply andb_true_iff in H as [H1 H2]. rewrite (IH H2).
  destruct (Ascii.eqb c comma) eqn:E; [|reflexivity].
  apply Ascii.eqb_eq in E. subst c. discriminate.
Qed.

Lemma trimStart_skips (pre s : string) :
  whitespace_only pre = true -> trimStart (pre ++ s) = trimStart s.
Proof.
  induction pre as [|c pre IH]; cbn; [reflexivity|].
  intros H. apply andb_true_iff in H as [H1 H2]. now rewrite H1, IH.
Qed.

Lemma clean_token_spec (t : string) :
  clean_token t = true <-> trim t = t /\ has_char comma t = false.
Proof.
  unfold clean_token. rewrite andb_true_iff, String.eqb_eq, negb_true_iff.
  reflexivity.
Qed.

End InterestsFacts.

(** X2. An interests field left empty, or filled with white space only,
    is sent as a list of one empty text, not as an empty list. *)
Theorem blank_interests_give_one_empty_entry (raw : string) :
  whitespace_only raw = true ->
  parse_interests raw = [EmptyString].
Proof.
  intros H. unfold parse_interests.
  rewrite (split_free _ _ (whitespace_has_no_comma _ H)). cbn.
  now rewrite (trim_whitespace_only _ H).
Qed.

Lemma blank_interests_witness :
  whitespace_only "  " = true
  /\ parse_interests "  " = [EmptyString].
Proof.
  split; [reflexivity|].
  apply (blank_interests_give_one_empty_entry "  "). reflexivity.
Defined.

(** Parsing undoes joining, behind any white space. *)
Lemma parse_join_behind (gap : string) (tokens : list string) :
  whitespace_only gap = true ->
  Forall (fun t => clean_token t = true) tokens ->
  tokens <> [] ->
  forall pre, whitespace_only pre = true ->
    parse_interests (pre ++ join (String JsString.comma gap) tokens)
    = tokens.
Proof.
  intros Hgap Hall. induction Hall as [|t rest Ht Hrest IH]; [congruence|].
  intros _ pre Hpre.
  apply clean_token_spec in Ht as [Htrim Hcomma].
  assert (Hfree : has_char JsString.comma (pre ++ t) = false).
  { rewrite has_char_app, (whitespace_has_no_comma _ Hpre), Hcomma.
    reflexivity. }
  assert (Hfirst : JsString.trim (pre ++ t) = t).
  { unfold JsString.trim. rewrite (trimStart_skips pre t Hpre).
    exact Htrim. }
  unfold parse_interests in *. destruct rest as [|t2 rest].
  - cbn [join]. rewrite (split_free _ _ Hfree). cbn. now rewrite Hfirst.
  - cbn [join]. rewrite <- append_assoc. cbn [append].
    rewrite (split_first_piece _ _ _ Hfree). cbn [map].
    rewrite Hfirst. f_equal. apply IH; [discriminate | exact Hgap].
Qed.

(** X3. Round trip of the interests field: a non-empty list of
    interests, none with a comma or with white space at either end,
    written out with commas (followed by any white space, such as one
    blank) is parsed back to that very list. *)
Theorem parse_interests_of_join (gap : string) (tokens : list string) :
  whitespace_only gap = true ->
  tokens <> [] ->
  Forall (fun t => clean_token t = true) tokens ->
  parse_interests (join (String JsString.comma gap) tokens) = tokens.
Proof.
  intros Hgap Hne Hall.
  exact (parse_join_behind gap Hgap Hall Hne EmptyString eq_refl).
Qed.

Lemma parse_interests_of_join_witness :
  whitespace_only " " = true
  /\ ["art"; "street food"; "jazz"] <> []
  /\ Forall (fun t => clean_token t = true) ["art"; "street food"; "jazz"]
  /\ parse_interests "art, street food, jazz"
     = ["art"; "street food"; "jazz"].
Proof.
  assert (H1 : whitespace_only " " = true) by reflexivity.
  assert (H2 : ["art"; "street food"; "jazz"] <> []) by discriminate.
  assert (H3 : Forall (fun t => clean_token t = true)
                 ["art"; "street food"; "jazz"])
    by (repeat constructor).
  split; [exact H1|]. split; [exact H2|]. split; [exact H3|].
  exact (parse_interests_of_join " " H1 H2 H3).
Defined.

(* ================================================================== *)
(** ** The loading indicator and the result area around a submission *)

#[global] Hint Unfold Events.chatInput_keypress Events.page_of
  Events.request_of : js.

(** X4. However a submission settles (success, failure reported by the
    server, rejected promise, or an error thrown while the answer is
    shown), the handler ends normally with its loading indicator off, in
    each of the three variants. *)
Theorem loading_indicator_always_cleared :
  forall (marked : option (string -> string)) (l : Locals)
         (o : FetchOutcome PlanData) (r : Page),
    (fst (Part000.submit_resume marked l o r) = inr tt
     /\ loading_display (dom (snd (Part000.submit_resume marked l o r)))
        = "none")
    /\ (fst (ScriptV1.submit_resume l o r) = inr tt
        /\ loading_display (dom (snd (ScriptV1.submit_resume l o r)))
           = "none")
    /\ (fst (ScriptV2.submit_resume marked l o r) = inr tt
        /\ loadingSpinner_hidden
             (dom (snd (ScriptV2.submit_resume marked l o r)))
           = true).
Proof.
  intros marked l o r. case_outcome o.
  - js_run. repeat split.
  - destruct data as [succ plan_text [[|c s]|] er de];
      destruct succ, ok, marked; js_run; repeat split.
Qed.

(** X5. From the start of a submission until its answer, the loading
    indicator is on and the result area is off the page, whatever was
    shown before; the plan text, the transcript, the chat box, the
    snapshot and the alerts are as they were (current handler and first
    variant; the second the same through the class [hidden], provided
    the page has the check box). *)
Theorem waiting_hides_previous_result :
  forall p : Page,
    (exists req l q,
       Part000.submit p = Awaiting req l q
       /\ loading_display (dom q) = "block"
       /\ result_visible q = false
       /\ planContent (dom q) = planContent (dom p)
       /\ transcript q = transcript p
       /\ chatBox_hidden (dom q) = chatBox_hidden (dom p)
       /\ vars q = vars p /\ alerts q = alerts p /\ form q = form p)
    /\ (exists req l q,
          ScriptV1.submit p = Awaiting req l q
          /\ loading_display (dom q) = "block"
          /\ result_visible q = false
          /\ planContent (dom q) = planContent (dom p))
    /\ (forall checked,
          includeFlights_checked (form p) = Some checked ->
          exists req l q,
            ScriptV2.submit p = Awaiting req l q
            /\ loadingSpinner_hidden (dom q) = false
            /\ result_visible q = false
            /\ planContent (dom q) = planContent (dom p)
            /\ transcript q = transcript p).
Proof.
  intros p. split; [|split].
  - do 3 eexists. split; [js_run; reflexivity|]. cbn. repeat split.
  - do 3 eexists. split; [js_run; reflexivity|]. cbn. repeat split.
  - intros checked H. do 3 eexists. split.
    + js_run. rewrite H. cbn. reflexivity.
    + cbn. unfold result_visible. cbn.
      rewrite andb_false_r. repeat split.
Qed.

Lemma waiting_hides_previous_result_witness :
  includeFlights_checked (form Samples.chatting_page) = Some true
  /\ exists req l q,
       ScriptV2.submit Samples.chatting_page = Awaiting req l q
       /\ result_visible q = false.
Proof.
  split; [reflexivity|].
  destruct (waiting_hides_previous_result Samples.chatting_page)
    as (_ & _ & H).
  destruct (H true eq_refl) as (req & l & q & Hs & _ & Hv & _).
  exists req, l, q. split; [exact Hs | exact Hv].
Defined.

(** X6. A transport failure (a rejected [fetch], or a body that cannot be
    read) is reported by one alert and nothing else: the current handler
    and the second variant quote the error's message, the result area
    stays off the page, and the plan text, the flight section, the
    transcript, the chat box and the snapshot are not touched. *)
Theorem transport_failure_alerts_only :
  forall (marked : option (string -> string)) (message : string)
         (p : Page),
    let shown := ("Error connecting to the server: " ++ message)%string in
    (let q := snd (Part000.run_submit marked (Rejected message) p) in
     alerts q = (alerts p ++ [shown])%list
     /\ result_visible q = false
     /\ planContent (dom q) = planContent (dom p)
     /\ flightDetails_hidden (dom q) = flightDetails_hidden (dom p)
     /\ transcript q = transcript p
     /\ chatBox_hidden (dom q) = chatBox_hidden (dom p)
     /\ vars q = vars p)
    /\ (forall l (r : Page),
          let r' := snd (ScriptV2.submit_resume marked l
                           (Rejected message) r) in
          alerts r' = (alerts r ++ [shown])%list
          /\ result_hidden (dom r') = result_hidden (dom r)
          /\ planContent (dom r') = planContent (dom r)
          /\ transcript r' = transcript r
          /\ vars r' = vars r).
Proof.
  intros marked message p shown. split.
  - js_run. repeat split.
  - intros l r. js_run. repeat split.
Qed.

(** X7. The first variant tells the user the same thing for a failure
    reported by the server and for a transport failure: one alert with
    one fixed text, whatever the answer or the error said, and the
    result area stays off the page. *)
Theorem first_variant_failures_look_alike :
  forall (o : FetchOutcome PlanData) (p : Page),
    trip_failed o = true ->
    let q := snd (ScriptV1.run_submit o p) in
    alerts q
    = (alerts p ++ ["Error generating travel plan. Please try again."])%list
    /\ result_visible q = false
    /\ planContent (dom q) = planContent (dom p).
Proof.
  intros o p H. case_outcome o.
  - js_run. repeat split.
  - destruct data as [succ plan_text fd er de]. cbn in H.
    destruct succ; [discriminate|]. js_run. repeat split.
Qed.

Lemma first_variant_failures_witness :
  trip_failed (Resolved false Samples.plan_rejected) = true
  /\ alerts (snd (ScriptV1.run_submit
                    (Resolved false Samples.plan_rejected)
                    Samples.fresh_page))
     = ["Error generating travel plan. Please try again."].
Proof.
  split; [reflexivity|].
  destruct (@first_variant_failures_look_alike
              (Resolved false Samples.plan_rejected) Samples.fresh_page
              eq_refl) as (H & _).
  exact H.
Defined.

(** X8. A page without the [includeFlights] check box: the current
    handler sends its request with [include_flights] false; the second
    variant reads the box without a test, before its [try], so it throws
    before any request is sent and leaves its loading indicator on. *)
Theorem missing_check_box :
  forall p : Page,
    includeFlights_checked (form p) = None ->
    (exists req l q,
       Part000.submit p = Awaiting req l q
       /\ In ("include_flights", VBool false) (body req)
       /\ requests q = (requests p ++ [req])%list)
    /\ (exists message q,
          ScriptV2.submit p = Settled (Threw message) q
          /\ requests q = requests p
          /\ alerts q = alerts p
          /\ loadingSpinner_hidden (dom q) = false
          /\ result_hidden (dom q) = true).
Proof.
  intros p H. split.
  - do 3 eexists. split; [js_run; reflexivity|]. cbn. rewrite H.
    split; [intuition | reflexivity].
  - do 2 eexists. split; [js_run; rewrite H; cbn; reflexivity|].
    cbn. repeat split.
Qed.

Lemma missing_check_box_witness :
  includeFlights_checked
    (form (edit_form
             {| source_value := "NYC"; destination_value := "Paris";
                startDate_value := "2024-06-01";
                endDate_value := "2024-06-10";
                budget_value := "2000"; numTravelers_value := "2";
                travelers_value := "2"; interests_value := "art, food";
                includeFlights_checked := None |}
             Samples.fresh_page)) = None
  /\ exists message q,
       ScriptV2.submit
         (edit_form
            {| source_value := "NYC"; destination_value := "Paris";
               startDate_value := "2024-06-01";
               endDate_value := "2024-06-10";
               budget_value := "2000"; numTravelers_value := "2";
               travelers_value := "2"; interests_value := "art, food";
               includeFlights_checked := None |}
            Samples.fresh_page)
       = Settled (Threw message) q
       /\ requests q = [].
Proof.
  split; [reflexivity|].
  destruct (@missing_check_box
              (edit_form
                 {| source_value := "NYC"; destination_value := "Paris";
                    startDate_value := "2024-06-01";
                    endDate_value := "2024-06-10";
                    budget_value := "2000"; numTravelers_value := "2";
                    travelers_value := "2"; interests_value := "art, food";
                    includeFlights_checked := None |}
                 Samples.fresh_page) eq_refl)
    as (_ & message & q & Hs & Hr & _).
  exists message, q. split; [exact Hs | exact Hr].
Defined.

(* ================================================================== *)
(** ** What a successful answer shows *)

(** X9. In the current handler a successful answer always empties the
    transcript, shows the chat box and stores the whole snapshot (the
    plan of the answer with the constants read at submission), with or
    without the markdown library and whatever the flight details. *)
Theorem success_resets_chat_and_snapshot :
  forall (marked : option (string -> string)) (l : Locals) (ok : bool)
         (data : PlanData) (r : Page),
    success data = true ->
    let r' := snd (Part000.submit_resume marked l (Resolved ok data) r) in
    transcript r' = []
    /\ chat_active r' = true
    /\ vars r' = snapshot_of l (plan data)
    /\ requests r' = requests r.
Proof.
  intros marked l ok data r H.
  destruct data as [succ plan_text [[|c s]|] er de]. all: cbn in H.
  all: subst succ; destruct marked; js_run; repeat split.
Qed.

Lemma success_resets_chat_witness :
  success Samples.plan_ok = true
  /\ transcript
       (snd (Part000.submit_resume None Samples.paris_locals
               (Resolved true Samples.plan_ok) Samples.chatting_page))
     = [].
Proof.
  split; [reflexivity|].
  destruct (@success_resets_chat_and_snapshot None Samples.paris_locals
              true Samples.plan_ok Samples.chatting_page eq_refl)
    as (H & _).
  exact H.
Defined.

(** X10. With the markdown library loaded, a successful answer is shown
    in full: the rendered plan in the result area, no alert, and the
    flight section shown with the rendered details exactly when the
    answer carries a non-empty [flight_details]; details that are absent
    or the empty text hide the section and leave its content.  The
    current handler makes the result area visible.  The second variant
    takes the class [hidden] off the result area and leaves its inline
    display style as it was, so that the area is visible exactly when
    that style is not [none]. *)
Theorem success_with_renderer :
  forall (parse : string -> string) (l : Locals) (data : PlanData)
         (r : Page),
    (forall ok, success data = true ->
       let r' := snd (Part000.submit_resume (Some parse) l
                        (Resolved ok data) r) in
       result_visible r' = true
       /\ planContent (dom r') = parse (plan data)
       /\ alerts r' = alerts r
       /\ match flight_details data with
          | Some (String c s) =>
              flight_section_visible r' = true
              /\ flightContent (dom r') = parse (String c s)
          | _ =>
              flight_section_visible r' = false
              /\ flightContent (dom r') = flightContent (dom r)
          end)
    /\ (let r' := snd (ScriptV2.submit_resume (Some parse) l
                         (Resolved true data) r) in
        result_hidden (dom r') = false
        /\ result_display (dom r') = result_display (dom r)
        /\ result_visible r'
           = negb (String.eqb (result_display (dom r)) "none")
        /\ planContent (dom r') = parse (plan data)
        /\ transcript r' = []
        /\ chat_active r' = true
        /\ currentTravelPlan (vars r') = plan data
        /\ alerts r' = alerts r
        /\ match flight_details data with
           | Some (String c s) =>
               flight_section_visible r' = true
               /\ flightContent (dom r') = parse (String c s)
           | _ =>
               flight_section_visible r' = false
               /\ flightContent (dom r') = flightContent (dom r)
           end).
Proof.
  intros parse l data r.
  destruct data as [succ plan_text [[|c s]|] er de]; split.
  all: try (intros ok H; cbn in H; subst succ).
  all: js_run; unfold result_visible; cbn; rewrite ?andb_true_r;
    repeat split.
Qed.

Lemma success_with_renderer_witness :
  success Samples.plan_ok = true
  /\ result_visible
       (snd (Part000.submit_resume (Some Samples.paragraph)
               Samples.paris_locals (Resolved true Samples.plan_ok)
               Samples.fresh_page)) = true
  /\ result_visible
       (snd (ScriptV2.submit_resume (Some Samples.paragraph)
               Samples.paris_locals (Resolved true Samples.plan_ok)
               Samples.chatting_page)) = true
  /\ flightContent
       (dom (snd (Part000.submit_resume (Some Samples.paragraph)
                    Samples.paris_locals (Resolved true Samples.plan_ok)
                    Samples.fresh_page))) = "<p>AF 007</p>".
Proof.
  split; [reflexivity|].
  destruct (success_with_renderer Samples.paragraph Samples.paris_locals
              Samples.plan_ok Samples.fresh_page) as (H & _).
  destruct (success_with_renderer Samples.paragraph Samples.paris_locals
              Samples.plan_ok Samples.chatting_page)
    as (_ & _ & _ & Hv2 & _).
  destruct (H true eq_refl) as (Hv & _ & _ & _ & Hf).
  split; [exact Hv|]. split; [exact Hv2 | exact Hf].
Defined.

(** X11. In the second variant nothing guards the renderer: without the
    markdown library every OK answer ends in the alert of the [catch],
    and neither the plan nor the chat is touched. *)
Theorem second_variant_needs_renderer :
  forall (l : Locals) (data : PlanData) (r : Page),
    let r' := snd (ScriptV2.submit_resume None l (Resolved true data) r) in
    alerts r'
    = (alerts r
         ++ ["Error connecting to the server: marked is not defined"])%list
    /\ planContent (dom r') = planContent (dom r)
    /\ result_hidden (dom r') = result_hidden (dom r)
    /\ transcript r' = transcript r
    /\ chatBox_hidden (dom r') = chatBox_hidden (dom r)
    /\ vars r' = vars r.
Proof.
  intros l data r. js_run. repeat split.
Qed.

Section NewlineFacts.

Lemma replace_newlines_clean (s : string) :
  has_char newline (ScriptV1.replace_newlines s) = false.
Proof.
  induction s as [|c s IH]; [reflexivity|].
  cbn [ScriptV1.replace_newlines].
  destruct (Ascii.eqb c (ascii_of_nat 10)) eqn:E.
  - exact IH.
  - cbn [has_char]. unfold newline at 1. now rewrite E, IH.
Qed.

Lemma replace_newlines_fixed (s : string) :
  has_char newline s = false -> ScriptV1.replace_newlines s = s.
Proof.
  induction s as [|c s IH]; [reflexivity|].
  cbn [has_char ScriptV1.replace_newlines]. unfold newline at 1.
  intros H. apply orb_false_iff in H as [H1 H2].
  rewrite H1. f_equal. now apply IH.
Qed.

Lemma replace_newlines_length (s : string) :
  String.length (ScriptV1.replace_newlines s)
  = String.length s + 3 * JsString.count_char newline s.
Proof.
  induction s as [|c s IH]; [reflexivity|].
  cbn [ScriptV1.replace_newlines JsString.count_char String.length].
  unfold newline at 1.
  destruct (Ascii.eqb c (ascii_of_nat 10)).
  - change (String.length ("<br>" ++ ScriptV1.replace_newlines s))
      with (4 + String.length (ScriptV1.replace_newlines s)).
    rewrite IH. lia.
  - cbn [String.length]. rewrite IH. lia.
Qed.

End NewlineFacts.

(** X12. The first variant shows a successful plan as plain text with
    each line feed turned into a line-break tag: the text shown holds no
    line feed, is three characters longer per line feed, and is the plan
    itself when the plan has a single line.  The result area is
    displayed, no alert is shown, and chat and snapshot are not
    touched. *)
Theorem first_variant_shows_plan :
  forall (l : Locals) (ok : bool) (data : PlanData) (r : Page),
    success data = true ->
    let r' := snd (ScriptV1.submit_resume l (Resolved ok data) r) in
    planContent (dom r') = ScriptV1.replace_newlines (plan data)
    /\ has_char newline (planContent (dom r')) = false
    /\ String.length (planContent (dom r'))
       = String.length (plan data)
         + 3 * JsString.count_char newline (plan data)
    /\ (has_char newline (plan data) = false ->
        planContent (dom r') = plan data)
    /\ result_display (dom r') = "block"
    /\ alerts r' = alerts r
    /\ transcript r' = transcript r
    /\ vars r' = vars r.
Proof.
  intros l ok data r H.
  destruct data as [succ plan_text fd er de]. cbn in H. subst succ.
  js_run. repeat split.
  - apply replace_newlines_clean.
  - apply replace_newlines_length.
  - apply replace_newlines_fixed.
Qed.

Lemma first_variant_shows_plan_witness :
  success Samples.plan_ok = true
  /\ planContent
       (dom (snd (ScriptV1.submit_resume Samples.paris_locals
                    (Resolved true Samples.plan_ok) Samples.fresh_page)))
     = "Day 1: Louvre".
Proof.
  split; [reflexivity|].
  destruct (@first_variant_shows_plan Samples.paris_locals true
              Samples.plan_ok Samples.fresh_page eq_refl)
    as (_ & _ & _ & H & _).
  apply H. reflexivity.
Defined.

(* ================================================================== *)
(** ** How the handlers compose *)

(** X13. With the markdown library loaded, pressing Enter on a message
    that is not blank sends one chat request and empties the input, so
    that a second Enter right after does nothing: no second request, no
    second turn.  Any other key leaves the page alone. *)
Theorem enter_key_sends_once :
  forall (parse : string -> string) (p : Page),
    JsString.trim (chatInput (dom p)) <> EmptyString ->
    (exists req q,
       chatInput_keypress (Some parse) "Enter" p = Awaiting req tt q
       /\ requests q = (requests p ++ [req])%list
       /\ chatInput (dom q) = EmptyString
       /\ chatInput_keypress (Some parse) "Enter" q = Settled Returned q)
    /\ (forall marked key,
          String.eqb key "Enter" = false ->
          chatInput_keypress marked key p = Settled Returned p).
Proof.
  intros parse p H. split.
  - unfold chatInput_keypress. cbn [String.eqb Ascii.eqb Bool.eqb].
    rewrite (Part000_send_awaits parse p H).
    do 2 eexists. split; [reflexivity|]. split; [reflexivity|].
    split; reflexivity.
  - intros marked key Hk. unfold chatInput_keypress. now rewrite Hk.
Qed.

Lemma enter_key_sends_once_witness :
  JsString.trim (chatInput (dom Samples.chatting_page)) <> EmptyString
  /\ exists req q,
       chatInput_keypress (Some Samples.paragraph) "Enter"
         Samples.chatting_page = Awaiting req tt q
       /\ chatInput_keypress (Some Samples.paragraph) "Enter" q
          = Settled Returned q.
Proof.
  assert (H : JsString.trim (chatInput (dom Samples.chatting_page))
              <> EmptyString) by (cbn; discriminate).
  split; [exact H|].
  destruct (enter_key_sends_once Samples.paragraph Samples.chatting_page H)
    as ((req & q & H1 & _ & _ & H2) & _).
  exists req, q. split; [exact H1 | exact H2].
Defined.

(** X14. Two messages sent one after the other, before either answer is
    back: both user turns are in the transcript at once, in the order
    sent, and the assistant turns follow in the order the answers
    arrive, so the answer to the second message can stand before the
    answer to the first. *)
Theorem answers_land_in_completion_order :
  forall (parse : string -> string) (p : Page) (t1 t2 : string)
         (o1 o2 : FetchOutcome ChatData),
    JsString.trim t1 <> EmptyString ->
    JsString.trim t2 <> EmptyString ->
    exists req1 q1 req2 q2,
      Part000.sendMessage (Some parse) (type_chat t1 p)
      = Awaiting req1 tt q1
      /\ Part000.sendMessage (Some parse) (type_chat t2 q1)
         = Awaiting req2 tt q2
      /\ transcript q2
         = (transcript p
              ++ [user_turn (parse (JsString.trim t1));
                  user_turn (parse (JsString.trim t2))])%list
      /\ transcript
           (snd (sendMessage_resume (Some parse) o1
                   (snd (sendMessage_resume (Some parse) o2 q2))))
         = (transcript p
              ++ [user_turn (parse (JsString.trim t1));
                  user_turn (parse (JsString.trim t2));
                  assistant_turn (parse (assistant_text o2));
                  assistant_turn (parse (assistant_text o1))])%list.
Proof.
  intros parse p t1 t2 o1 o2 H1 H2.
  do 4 eexists. split; [|split; [|split]].
  - apply (Part000_send_awaits parse (type_chat t1 p)). exact H1.
  - match goal with
    | |- Part000.sendMessage _ (type_chat _ ?q) = _ =>
        apply (Part000_send_awaits parse (type_chat t2 q)); exact H2
    end.
  - cbn. unfold transcript. rewrite <- app_assoc. reflexivity.
  - rewrite !resume_appends_assistant_turn. cbn. unfold transcript.
    rewrite <- !app_assoc. reflexivity.
Qed.

Lemma answers_order_witness :
  JsString.trim "first" <> EmptyString
  /\ JsString.trim "second" <> EmptyString
  /\ exists req1 q1 req2 q2,
       Part000.sendMessage (Some Samples.paragraph)
         (type_chat "first" Samples.fresh_page) = Awaiting req1 tt q1
       /\ Part000.sendMessage (Some Samples.paragraph)
            (type_chat "second" q1) = Awaiting req2 tt q2
       /\ map innerHTML
            (transcript
               (snd (sendMessage_resume (Some Samples.paragraph)
                       (Resolved true {| response := "one" |})
                       (snd (sendMessage_resume (Some Samples.paragraph)
                               (Resolved true {| response := "two" |})
                               q2)))))
          = ["<p>first</p>"; "<p>second</p>"; "<p>two</p>"; "<p>one</p>"].
Proof.
  assert (H1 : JsString.trim "first" <> EmptyString) by (cbn; discriminate).
  assert (H2 : JsString.trim "second" <> EmptyString)
    by (cbn; discriminate).
  split; [exact H1|]. split; [exact H2|].
  destruct (@answers_land_in_completion_order Samples.paragraph
              Samples.fresh_page "first" "second"
              (Resolved true {| response := "one" |})
              (Resolved true {| response := "two" |}) H1 H2)
    as (req1 & q1 & req2 & q2 & Ha & Hb & _ & Ht).
  exists req1, q1, req2, q2. split; [exact Ha|]. split; [exact Hb|].
  rewrite Ht. reflexivity.
Defined.

(** X15. An answer to a chat message that arrives after a new plan was
    shown: the request carried the earlier plan and snapshot, and its
    answer is appended to the transcript the new plan has just emptied,
    where it stands alone, without its question. *)
Theorem late_answer_joins_new_transcript :
  forall (parse : string -> string) (p : Page) (text : string)
         (l : Locals) (ok : bool) (data : PlanData)
         (o : FetchOutcome ChatData),
    JsString.trim text <> EmptyString ->
    success data = true ->
    exists q,
      Part000.sendMessage (Some parse) (type_chat text p)
      = Awaiting (Part000.chat_request (JsString.trim text) (vars p)) tt q
      /\ let shown := snd (Part000.submit_resume (Some parse) l
                             (Resolved ok data) q) in
         let final := snd (sendMessage_resume (Some parse) o shown) in
         transcript final = [assistant_turn (parse (assistant_text o))]
         /\ vars final = snapshot_of l (plan data)
         /\ planContent (dom final) = parse (plan data).
Proof.
  intros parse p text l ok data o Ht Hs. eexists. split.
  - apply (Part000_send_awaits parse (type_chat text p)). exact Ht.
  - cbn zeta. rewrite resume_appends_assistant_turn.
    destruct data as [succ plan_text [[|c s]|] er de]; cbn in Hs;
      subst succ; js_run; repeat split.
Qed.

Lemma late_answer_witness :
  JsString.trim "Is it far?" <> EmptyString
  /\ success Samples.plan_ok = true
  /\ exists q,
       Part000.sendMessage (Some Samples.paragraph)
         (type_chat "Is it far?" Samples.chatting_page)
       = Awaiting
           (Part000.chat_request "Is it far?"
              (vars Samples.chatting_page)) tt q
       /\ transcript
            (snd (sendMessage_resume (Some Samples.paragraph)
                    (Resolved true {| response := "No." |})
                    (snd (Part000.submit_resume (Some Samples.paragraph)
                            Samples.paris_locals
                            (Resolved true Samples.plan_ok) q))))
          = [assistant_turn "<p>No.</p>"].
Proof.
  assert (H : JsString.trim "Is it far?" <> EmptyString)
    by (cbn; discriminate).
  split; [exact H|]. split; [reflexivity|].
  destruct (@late_answer_joins_new_transcript Samples.paragraph
              Samples.chatting_page "Is it far?" Samples.paris_locals true
              Samples.plan_ok (Resolved true {| response := "No." |})
              H eq_refl) as (q & Hq & Ht & _).
  exists q. split; [exact Hq | exact Ht].
Defined.

(** X16. Two submissions in flight: the form is submitted, altered and
    submitted again; the answer to the second arrives first, then the
    answer to the first.  Both being successful, the page ends up
    showing the plan of the first, older submission, with the snapshot
    of the first form, while the form holds the second input: the answer
    that arrives last wins, not the request made last. *)
Theorem stale_answer_overwrites_newer :
  forall (parse : string -> string) (p : Page) (f2 : Form)
         (ok1 ok2 : bool) (d1 d2 : PlanData),
    success d1 = true ->
    success d2 = true ->
    exists req1 l1 q1 req2 l2 q2,
      Part000.submit p = Awaiting req1 l1 q1
      /\ Part000.submit (edit_form f2 q1) = Awaiting req2 l2 q2
      /\ body req2 = spec_trip_payload f2
      /\ let final :=
           snd (Part000.submit_resume (Some parse) l1 (Resolved ok1 d1)
                  (snd (Part000.submit_resume (Some parse) l2
                          (Resolved ok2 d2) q2))) in
         planContent (dom final) = parse (plan d1)
         /\ currentTravelPlan (vars final) = plan d1
         /\ currentSource (vars final) = source_value (form p)
         /\ currentDestination (vars final) = destination_value (form p)
         /\ currentBudget (vars final) = parseFloat (budget_value (form p))
         /\ form final = f2.
Proof.
  intros parse p f2 ok1 ok2 d1 d2 H1 H2.
  do 6 eexists. split; [js_run; reflexivity|].
  split; [js_run; reflexivity|]. split; [reflexivity|].
  destruct d1 as [s1 plan1 [[|c1 fd1]|] er1 de1]; cbn in H1; subst s1;
    destruct d2 as [s2 plan2 [[|c2 fd2]|] er2 de2]; cbn in H2; subst s2;
    js_run; repeat split.
Qed.

Lemma stale_answer_witness :
  success Samples.plan_ok = true
  /\ success Samples.plan_ok_no_flights = true
  /\ exists req1 l1 q1 req2 l2 q2,
       Part000.submit Samples.fresh_page = Awaiting req1 l1 q1
       /\ Part000.submit (edit_form (form Samples.fresh_page) q1)
          = Awaiting req2 l2 q2
       /\ currentTravelPlan
            (vars (snd (Part000.submit_resume (Some Samples.paragraph) l1
                          (Resolved true Samples.plan_ok)
                          (snd (Part000.submit_resume
                                  (Some Samples.paragraph) l2
                                  (Resolved true Samples.plan_ok_no_flights)
                                  q2)))))
          = plan Samples.plan_ok.
Proof.
  split; [reflexivity|]. split; [reflexivity|].
  destruct (@stale_answer_overwrites_newer Samples.paragraph
              Samples.fresh_page (form Samples.fresh_page) true true
              Samples.plan_ok Samples.plan_ok_no_flights eq_refl eq_refl)
    as (req1 & l1 & q1 & req2 & l2 & q2 & Ha & Hb & _ & _ & Hp & _).
  exists req1, l1, q1, req2, l2, q2.
  split; [exact Ha|]. split; [exact Hb | exact Hp].
Defined.

(* ================================================================== *)
(** ** What holds along every sequence of events *)

Section Invariants.
Variable marked : option (string -> string).

(** What one turn of the event loop can do to the transcript, the chat
    box, the requests and the alerts. *)
Lemma turn_effects (p q : Page) :
  turn marked p q ->
  (transcript q = transcript p
   \/ transcript q = []
   \/ exists m, marked_turn m = true
                /\ transcript q = (transcript p ++ [m])%list)
  /\ (chat_active p = true -> chat_active q = true)
  /\ (requests q = requests p
      \/ exists req, known_endpoint req = true
                     /\ requests q = (requests p ++ [req])%list)
  /\ (alerts q = alerts p
      \/ exists text, alerts q = (alerts p ++ [text])%list).
Proof.
  assert (Send : forall p0 : Page,
    let q0 := page_of (Part000.sendMessage marked p0) in
    (transcript q0 = transcript p0
     \/ transcript q0 = []
     \/ exists m, marked_turn m = true
                  /\ transcript q0 = (transcript p0 ++ [m])%list)
    /\ (chat_active p0 = true -> chat_active q0 = true)
    /\ (requests q0 = requests p0
        \/ exists req, known_endpoint req = true
                       /\ requests q0 = (requests p0 ++ [req])%list)
    /\ (alerts q0 = alerts p0
        \/ exists text, alerts q0 = (alerts p0 ++ [text])%list)).
  { intros p0. cbn zeta. unfold Part000.sendMessage.
    destruct (JsString.truthy (JsString.trim (chatInput (dom p0)))); cbn.
    - destruct marked as [parse|]; js_run.
      + split; [right; right; eexists; split; [|reflexivity]; reflexivity|].
        split; [auto|]. split; [|auto].
        right. eexists. split; [|reflexivity]. reflexivity.
      + repeat split; auto.
    - repeat split; auto. }
  intros T. destruct T as [f p | text p | p | l o p | key p | p | o p].
  - cbn. repeat split; auto.
  - cbn. repeat split; auto.
  - js_run. split; [auto|]. split; [auto|]. split; [|auto].
    right. eexists. split; [|reflexivity]. reflexivity.
  - case_outcome o.
    + js_run. split; [auto|]. split; [auto|]. split; [auto|].
      right. eexists. reflexivity.
    + destruct data as [succ plan_text [[|c s]|] er de];
        destruct succ, marked; js_run;
        (split; [auto|]); (split; [auto|]); (split; [auto|]);
        solve [auto | right; eexists; reflexivity].
  - unfold chatInput_keypress. destruct (String.eqb key "Enter").
    + apply Send.
    + cbn. repeat split; auto.
  - apply Send.
  - case_outcome o; [|destruct ok]; destruct marked; js_run;
      (split; [first [ left; reflexivity
                     | right; right; eexists;
                       split; [|reflexivity]; reflexivity ]|]);
      repeat split; auto.
Qed.

End Invariants.

(** X17. Along every sequence of events on a page that runs the current
    script (edits of the form, typing, submissions, key presses, sends,
    and answers arriving in any order): the transcript holds only turns
    marked as user or assistant turns if it did at the start; the chat
    box, once shown, is never hidden again (a new submission hides the
    result area, not the chat box); requests and alerts are only ever
    added, and every request added goes to the plan or to the chat
    endpoint. *)
Theorem event_sequences_keep_chat_sound :
  forall (marked : option (string -> string)) (p q : Page),
    reaches marked p q ->
    (Forall (fun m => marked_turn m = true) (transcript p) ->
     Forall (fun m => marked_turn m = true) (transcript q))
    /\ (chat_active p = true -> chat_active q = true)
    /\ (exists sent,
          requests q = (requests p ++ sent)%list
          /\ Forall (fun r => known_endpoint r = true) sent)
    /\ (exists shown, alerts q = (alerts p ++ shown)%list).
Proof.
  intros marked p q R. induction R as [p | p q r R IH T].
  - split; [auto|]. split; [auto|]. split.
    + exists []. split; [now rewrite app_nil_r | constructor].
    + exists []. now rewrite app_nil_r.
  - destruct IH as (It & Ic & (sent & Is & Ik) & (shown & Ia)).
    destruct (turn_effects T) as (Tt & Tc & Ts & Ta).
    split; [|split; [|split]].
    + intros H. specialize (It H).
      destruct Tt as [-> | [-> | (m & Hm & ->)]];
        [exact It | constructor |].
      apply Forall_app. split; [exact It | repeat constructor; exact Hm].
    + auto.
    + destruct Ts as [-> | (req & Hk & ->)].
      * exists sent. now split.
      * exists (sent ++ [req])%list. split.
        -- now rewrite Is, app_assoc.
        -- apply Forall_app.
           split; [exact Ik | repeat constructor; exact Hk].
    + destruct Ta as [-> | (text & ->)].
      * exists shown. exact Ia.
      * exists (shown ++ [text])%list. now rewrite Ia, app_assoc.
Qed.

Lemma event_sequences_witness :
  reaches (Some Samples.paragraph) Samples.chatting_page
    (snd (sendMessage_resume (Some Samples.paragraph)
            (Rejected "Failed to fetch")
            (page_of (Part000.sendMessage (Some Samples.paragraph)
                        Samples.chatting_page))))
  /\ Forall (fun m => marked_turn m = true)
       (transcript Samples.chatting_page)
  /\ chat_active Samples.chatting_page = true
  /\ Forall (fun m => marked_turn m = true)
       (transcript
          (snd (sendMessage_resume (Some Samples.paragraph)
                  (Rejected "Failed to fetch")
                  (page_of (Part000.sendMessage (Some Samples.paragraph)
                              Samples.chatting_page)))))
  /\ chat_active
       (snd (sendMessage_resume (Some Samples.paragraph)
               (Rejected "Failed to fetch")
               (page_of (Part000.sendMessage (Some Samples.paragraph)
                           Samples.chatting_page)))) = true.
Proof.
  assert (R : reaches (Some Samples.paragraph) Samples.chatting_page
                (snd (sendMessage_resume (Some Samples.paragraph)
                        (Rejected "Failed to fetch")
                        (page_of (Part000.sendMessage
                                    (Some Samples.paragraph)
                                    Samples.chatting_page))))).
  { eapply reaches_next; [eapply reaches_next; [apply reaches_here|]|].
    - apply turn_send.
    - apply turn_chat_settles. }
  assert (F : Forall (fun m => marked_turn m = true)
                (transcript Samples.chatting_page))
    by (repeat constructor).
  assert (C : chat_active Samples.chatting_page = true) by reflexivity.
  destruct (event_sequences_keep_chat_sound R) as (Ht & Hc & _).
  split; [exact R|]. split; [exact F|]. split; [exact C|].
  split; [exact (Ht F) | exact (Hc C)].
Defined.

(** X18. No handler of the current script writes to the form: after a
    submission, whatever its outcome, the fields hold what the user
    entered (the form is not reset), and a message typed in the chat
    input is still there; of the chat code only the first half of
    sendMessage touches the chat input. *)
Theorem handlers_leave_the_form :
  forall (marked : option (string -> string)) (p : Page),
    (forall l o,
       let q := snd (Part000.submit_resume marked l o p) in
       form q = form p /\ chatInput (dom q) = chatInput (dom p))
    /\ (forall o,
          let q := snd (Part000.run_submit marked o p) in
          form q = form p /\ chatInput (dom q) = chatInput (dom p))
    /\ form (page_of (Part000.sendMessage marked p)) = form p
    /\ (forall o,
          let q := snd (sendMessage_resume marked o p) in
          form q = form p /\ chatInput (dom q) = chatInput (dom p)).
Proof.
  intros marked p.
  assert (R : forall l o (r : Page),
             let q := snd (Part000.submit_resume marked l o r) in
             form q = form r /\ chatInput (dom q) = chatInput (dom r)).
  { intros l o r. case_outcome o; [js_run; now split|].
    destruct data as [succ plan_text [[|c s]|] er de];
      destruct succ, marked; js_run; now split. }
  split; [intros l o; apply R|]. split; [|split].
  - intros o. cbn zeta. unfold Part000.run_submit.
    destruct (Part000_submit_awaits p) as (l & _ & _ & ->).
    rewrite snd_settle.
    match goal with
    | |- context [Part000.submit_resume marked l o ?r] =>
        destruct (R l o r) as (Hf & Hc); rewrite Hf, Hc
    end.
    now split.
  - unfold Part000.sendMessage.
    destruct (JsString.truthy (JsString.trim (chatInput (dom p))));
      [|reflexivity].
    destruct marked; reflexivity.
  - intros o. case_outcome o; [|destruct ok]; destruct marked; js_run;
      now split.
Qed.

(* ================================================================== *)
(** ** Trimming and splitting, against their wording *)

Section TrimFacts.
Import JsString.

Lemma trimStart_splits (s : string) :
  exists lead, s = lead ++ trimStart s /\ whitespace_only lead = true.
Proof.
  induction s as [|c s (lead & E & W)]; [now exists EmptyString|].
  cbn [trimStart]. destruct (is_ws c) eqn:Hc.
  - exists (String c lead). cbn. rewrite Hc, W. now rewrite <- E.
  - now exists EmptyString.
Qed.

Lemma trimEnd_splits (s : string) :
  exists trail, s = trimEnd s ++ trail /\ whitespace_only trail = true.
Proof.
  induction s as [|c s (trail & E & W)]; [now exists EmptyString|].
  cbn [trimEnd]. destruct (trimEnd s) as [|d t].
  - cbn in E. subst s. destruct (is_ws c) eqn:Hc.
    + exists (String c trail). cbn. now rewrite Hc, W.
    + exists trail. now split.
  - exists trail. split; [|exact W]. cbn. now rewrite E at 1.
Qed.

Lemma first_char_trimStart (s : string) :
  not_ws (first_char (trimStart s)) = true.
Proof.
  induction s as [|c s IH]; [reflexivity|]. cbn [trimStart].
  destruct (is_ws c) eqn:Hc; [exact IH|]. cbn. now rewrite Hc.
Qed.

Lemma first_char_trimEnd (s : string) :
  not_ws (first_char s) = true -> not_ws (first_char (trimEnd s)) = true.
Proof.
  destruct s as [|c s]; [reflexivity|]. cbn [first_char not_ws trimEnd].
  intros H. apply negb_true_iff in H.
  destruct (trimEnd s); [rewrite H|]; cbn; now rewrite H.
Qed.

Lemma last_char_trimEnd (s : string) :
  not_ws (last_char (trimEnd s)) = true.
Proof.
  induction s as [|c s IH]; [reflexivity|]. cbn [trimEnd].
  destruct (trimEnd s) as [|d t].
  - destruct (is_ws c) eqn:Hc; [reflexivity|]. cbn. now rewrite Hc.
  - exact IH.
Qed.

Lemma trim_trimmed_of (s : string) : trimmed_of s (trim s).
Proof.
  destruct (trimStart_splits s) as (lead & E1 & W1).
  destruct (trimEnd_splits (trimStart s)) as (trail & E2 & W2).
  exists lead, trail. repeat split; try assumption.
  - unfold trim. now rewrite <- E2.
  - unfold no_ws_at_ends, trim. rewrite last_char_trimEnd, andb_true_r.
    apply first_char_trimEnd, first_char_trimStart.
Qed.

Lemma join_cons (sep t : string) (rest : list string) :
  rest <> [] -> join sep (t :: rest) = t ++ sep ++ join sep rest.
Proof. destruct rest; [congruence | reflexivity]. Qed.

Lemma join_split (s : string) : join "," (split comma s) = s.
Proof.
  induction s as [|c s IH]; [reflexivity|]. cbn [split].
  pose proof (split_not_nil comma s) as N.
  destruct (Ascii.eqb c comma) eqn:E.
  - apply Ascii.eqb_eq in E. subst c.
    rewrite join_cons by exact N. now rewrite IH.
  - destruct (split comma s) as [|t ts]; [congruence|].
    destruct ts as [|t2 ts].
    + cbn [join] in *. now rewrite <- IH.
    + rewrite join_cons in * by discriminate.
      rewrite <- IH. reflexivity.
Qed.

Lemma parse_interests_worded (raw : string) :
  comma_split_trimmed raw (parse_interests raw).
Proof.
  exists (split comma raw). split; [apply split_not_nil|].
  split; [symmetry; apply join_split|].
  split; [apply split_pieces_free|].
  unfold parse_interests. induction (split comma raw); cbn; constructor.
  - apply trim_trimmed_of.
  - assumption.
Qed.
End TrimFacts.

(* ================================================================== *)
(** ** Binary64 rounding keeps the integers it can hold *)

Section RoundFacts.
Local Open Scope Z_scope.



Lemma round_half_even_one (a : Z) : round_half_even a 1 = a.
Proof.
  unfold round_half_even. now rewrite Z.mod_1_r, Z.div_1_r.
Qed.



End RoundFacts.

(* ================================================================== *)
(** ** Rounding to binary64 *)

Section RoundingZ.
Local Open Scope Z_scope.














End RoundingZ.

Section RoundingQ.
Local Open Scope Q_scope.








End RoundingQ.

Section RoundingQ2.
Local Open Scope Q_scope.



End RoundingQ2.

Section RoundingQ3.
Local Open Scope Q_scope.




End RoundingQ3.

(* ================================================================== *)
(** ** [parseFloat] and [parseInt] on numerals, and on what is none *)

Section NaNFacts.









End NaNFacts.

Section NumeralFacts.















End NumeralFacts.

(* ================================================================== *)
(** ** The interests field (C5) *)

Lemma trimmed_no_ws (piece token : string) :
  trimmed_of piece token -> no_ws_at_ends token = true.
Proof. now intros (lead & trail & _ & _ & _ & H). Qed.

Lemma parse_interests_no_ws_no_comma (raw : string) :
  Forall (fun t => no_ws_at_ends t = true
                   /\ has_char JsString.comma t = false)
    (parse_interests raw).
Proof.
  unfold parse_interests. apply Forall_map.
  eapply Forall_impl; [|apply (split_pieces_free JsString.comma raw)].
  intros t H. split.
  - exact (trimmed_no_ws (trim_trimmed_of t)).
  - unfold JsString.trim.
    now apply has_char_trimEnd, has_char_trimStart.
Qed.

(** X1. The interests a submission sends are never an empty list, and
    every entry is free of commas and neither begins nor ends with a
    white space character. *)
Theorem parse_interests_entries_clean (raw : string) :
  parse_interests raw <> []
  /\ Forall (fun t => no_ws_at_ends t = true
                      /\ has_char JsString.comma t = false)
       (parse_interests raw).
Proof.
  split; [|apply parse_interests_no_ws_no_comma].
  unfold parse_interests. intros H. apply map_eq_nil in H.
  now apply split_not_nil in H.
Qed.

(** C5. The interests sent are the raw text cut at its commas, every
    piece kept and each piece without the white space around it: the
    pieces, joined by commas, give the raw text back, and each entry is
    its piece less leading and trailing white space, with none left at
    either end.  Nothing is filtered: there is one entry per comma plus
    one, and a text that ends in a comma gives a last entry that is the
    empty string.  The first variant parses the field the same way. *)
Theorem C5_interests_split_trim_unfiltered :
  forall (p : Page),
    let raw := interests_value (form p) in
    exists l q req,
      Part000.submit p = Awaiting req l q
      /\ member "interests" (payload req)
         = Some (JArray (map JString (interests l)))
      /\ comma_split_trimmed raw (interests l)
      /\ Forall (fun t => no_ws_at_ends t = true) (interests l)
      /\ length (interests l) = S (JsString.count_char JsString.comma raw)
      /\ (forall head, raw = head ++ "," ->
            last (interests l) "none" = EmptyString)
      /\ (exists l1 q1 req1,
            ScriptV1.submit p = Awaiting req1 l1 q1
            /\ interests l1 = interests l
            /\ member "interests" (payload req1)
               = Some (JArray (map JString (interests l)))).
Proof.
  intros p raw. do 3 eexists. split; [js_run; reflexivity|].
  cbn [interests]. split; [reflexivity|].
  split; [apply parse_interests_worded|]. split; [|split; [|split]].
  - eapply Forall_impl; [|apply (parse_interests_no_ws_no_comma raw)].
    now intros t [H _].
  - unfold parse_interests. now rewrite length_map, split_length.
  - intros head H. unfold parse_interests. fold raw. rewrite H.
    change (head ++ ",") with (head ++ String JsString.comma EmptyString).
    rewrite split_trailing, map_app. cbn [map].
    rewrite last_last. reflexivity.
  - do 3 eexists. split; [js_run; reflexivity|]. split; reflexivity.
Qed.

Lemma C5_trailing_comma_witness :
  "art , food  ," = "art , food  " ++ ","
  /\ exists l q req,
       Part000.submit
         (edit_form
            {| source_value := "NYC"; destination_value := "Paris";
               startDate_value := "2024-06-01";
               endDate_value := "2024-06-10";
               budget_value := "2000"; numTravelers_value := "2";
               travelers_value := "2"; interests_value := "art , food  ,";
               includeFlights_checked := Some true |}
            Samples.fresh_page)
       = Awaiting req l q
       /\ interests l = ["art"; "food"; EmptyString]
       /\ last (interests l) "none" = EmptyString.
Proof.
  split; [reflexivity|].
  destruct (C5_interests_split_trim_unfiltered
              (edit_form
                 {| source_value := "NYC"; destination_value := "Paris";
                    startDate_value := "2024-06-01";
                    endDate_value := "2024-06-10";
                    budget_value := "2000"; numTravelers_value := "2";
                    travelers_value := "2";
                    interests_value := "art , food  ,";
                    includeFlights_checked := Some true |}
                 Samples.fresh_page))
    as (l & q & req & Hs & _ & _ & _ & _ & Hlast & _).
  exists l, q, req. split; [exact Hs|]. split.
  - js_run. injection Hs as _ <- _. reflexivity.
  - apply (Hlast "art , food  "). reflexivity.
Defined.

(* ================================================================== *)
(** ** The payload of a submission (C4) *)









(* ================================================================== *)
(** ** The budget is not validated (C9) *)




(* ================================================================== *)
(** ** sendMessage on a page without the markdown library (C3) *)

(** C3, at the inputs where the code departs from it: the text is not
    blank and the markdown library is not loaded.  The input is cleared,
    then the first [addMessageToChat] calls the renderer unguarded and
    outside the [try]: the call ends in error with no user turn
    appended and no request sent, whatever the answer would have been.
    The chat was offered all the same: without the library a successful
    answer with no flight details is shown through the guarded fallback
    of line 50, with the chat box. *)
Theorem C3_send_without_renderer :
  forall (p : Page),
    JsString.trim (chatInput (dom p)) <> EmptyString ->
    Part000.sendMessage None p
    = Settled (Threw "marked is not defined") (type_chat EmptyString p)
    /\ transcript (type_chat EmptyString p) = transcript p
    /\ requests (type_chat EmptyString p) = requests p
    /\ (forall o,
          Part000.run_sendMessage None o p
          = (Threw "marked is not defined", type_chat EmptyString p))
    /\ (forall l ok data r,
          success data = true ->
          truthy_opt (flight_details data) = false ->
          let r' := snd (Part000.submit_resume None l (Resolved ok data) r) in
          chat_active r' = true
          /\ result_visible r' = true
          /\ alerts r' = alerts r).
Proof.
  intros p H.
  assert (E : Part000.sendMessage None p
              = Settled (Threw "marked is not defined")
                  (type_chat EmptyString p)).
  { unfold Part000.sendMessage. rewrite (trim_nonempty_truthy _ H).
    reflexivity. }
  split; [exact E|]. split; [reflexivity|]. split; [reflexivity|]. split.
  - intros o. unfold Part000.run_sendMessage. now rewrite E.
  - intros l ok data r Hs Hf.
    destruct data as [succ plan_text [[|c s]|] er de]; cbn in Hs, Hf;
      subst succ; try discriminate; js_run; repeat split.
Qed.

Lemma C3_send_without_renderer_witness :
  JsString.trim (chatInput (dom Samples.chatting_page)) <> EmptyString
  /\ Part000.sendMessage None Samples.chatting_page
     = Settled (Threw "marked is not defined")
         (type_chat EmptyString Samples.chatting_page)
  /\ transcript (type_chat EmptyString Samples.chatting_page)
     = transcript Samples.chatting_page.
Proof.
  assert (H : JsString.trim (chatInput (dom Samples.chatting_page))
              <> EmptyString) by (cbn; discriminate).
  split; [exact H|].
  destruct (C3_send_without_renderer Samples.chatting_page H)
    as (E & T & _).
  split; [exact E | exact T].
Defined.
